(** * smartstat-frontend: the HTTP client and the vendor-accounts page

    A shallow embedding of the TypeScript sources:
    - the API client module: the axios instance [api], its request and
      response interceptors (bearer token, refresh-and-retry on 401) and the
      API-call wrappers built on it;
    - [src/pages/admin/VendorsPage.tsx]: the effect that loads the vendor
      accounts and the three submit handlers.

    Promises are run to completion one after the other: an [async] function is
    a state transformer over the browser state that ends resolved or rejected.
    The backend is a parameter of the development (a transition function on an
    abstract server state); every call handed to the HTTP transport is appended
    to a trace so that statements can count and inspect the calls made. *)

From stdpp Require Import gmap strings list pretty.
From Stdlib Require Import ZArith Lia.

Local Open Scope string_scope.
Local Open Scope Z_scope.
Local Open Scope list_scope.

(** ** JavaScript values *)

Module Js.

(** The values that flow through the client: payloads typed [any], thrown
    values, React state holding [string | null].  [JNum z] is the number
    whose value is the integer [z]; fractional numbers do not occur in the
    code paths modelled here. *)
#[warnings="-register-all"]
Inductive JsVal : Type :=
| JUndefined
| JNull
| JBool (b : bool)
| JNum (z : Z)
| JStr (s : string)
| JObj (fields : list (string * JsVal)).

(** [if (v)], [!v], [v || d] *)
Definition truthy (v : JsVal) : bool :=
  match v with
  | JUndefined | JNull => false
  | JBool b => b
  | JNum z => negb (z =? 0)
  | JStr s => negb (String.eqb s "")
  | JObj _ => true
  end.

(** [a || b] *)
Definition or_else (a b : JsVal) : JsVal := if truthy a then a else b.

(** String coercion, as done by a template literal and by
    [localStorage.setItem]. *)
Definition to_string (v : JsVal) : string :=
  match v with
  | JUndefined => "undefined"
  | JNull => "null"
  | JBool true => "true"
  | JBool false => "false"
  | JNum z => pretty z
  | JStr s => s
  | JObj _ => "[object Object]"
  end.

Fixpoint assoc (k : string) (fields : list (string * JsVal)) : option JsVal :=
  match fields with
  | [] => None
  | (k', v) :: rest => if String.eqb k k' then Some v else assoc k rest
  end.

(** [v.k] for the data properties read by the code ([access], [property],
    [message]): reading a property of [undefined] or [null] throws a
    TypeError ([None]); a missing property, and any of these properties of
    a primitive, is [undefined]. *)
Definition get_prop (v : JsVal) (k : string) : option JsVal :=
  match v with
  | JUndefined | JNull => None
  | JObj fields => Some (default JUndefined (assoc k fields))
  | JBool _ | JNum _ | JStr _ => Some JUndefined
  end.

(** A value of type [string | null] as returned by [localStorage.getItem]. *)
Definition truthy_str (o : option string) : bool :=
  match o with
  | Some s => negb (String.eqb s "")
  | None => false
  end.

End Js.

Import Js.

(** ** Requests, responses and errors *)

Inductive Method : Type := GET | POST | PUT | DELETE.

(** An axios request config.  [cfg_retry] is the truthiness of the [_retry]
    property this repository adds to a config; [cfg_baseURL] is [None] until
    the instance defaults are merged in. *)
Record Config : Type := mkConfig {
  cfg_method : Method;
  cfg_url : string;
  cfg_baseURL : option string;
  cfg_headers : gmap string string;
  cfg_data : JsVal;
  cfg_retry : bool
}.

Definition set_retry (b : bool) (c : Config) : Config :=
  mkConfig (cfg_method c) (cfg_url c) (cfg_baseURL c) (cfg_headers c) (cfg_data c) b.

Definition set_header (k v : string) (c : Config) : Config :=
  mkConfig (cfg_method c) (cfg_url c) (cfg_baseURL c) (<[k:=v]> (cfg_headers c))
           (cfg_data c) (cfg_retry c).

Record Response : Type := mkResponse {
  res_status : Z;
  res_data : JsVal;
  res_config : Config
}.

(** Values a promise of the client rejects with.  An [AxiosError] has a
    [response] when the server answered (with a status outside 2xx) and none
    on a network failure. *)
Inductive JsError : Type :=
| AxiosError (message : string) (response : option Response) (config : option Config)
| Error (message : string)
| TypeError (message : string).

Definition err_config (e : JsError) : option Config :=
  match e with
  | AxiosError _ _ c => c
  | Error _ | TypeError _ => None
  end.

(** [error.response?.status] *)
Definition err_status (e : JsError) : option Z :=
  match e with
  | AxiosError _ (Some r) _ => Some (res_status r)
  | _ => None
  end.

(** [error.response?.status === 401] *)
Definition status_is_401 (e : JsError) : bool :=
  match err_status e with
  | Some s => s =? 401
  | None => false
  end.

(** What the transport is handed for one HTTP call. *)
Record HttpCall : Type := mkCall {
  call_method : Method;
  call_baseURL : option string;
  call_url : string;
  call_headers : gmap string string;
  call_data : JsVal
}.

Inductive NetResult : Type :=
| NetResponse (status : Z) (data : JsVal)
| NetFailure (message : string).

(** How a promise ends.  [Unsettled] is the result of a run whose fuel ran
    out; it is shown below never to be the result of a request once two
    units of fuel are given. *)
Inductive Outcome (A : Type) : Type :=
| Resolved (a : A)
| Rejected (e : JsError)
| Unsettled.
Arguments Resolved {A} a.
Arguments Rejected {A} e.
Arguments Unsettled {A}.

(** [process.env.X || d] *)
Definition env_or (x : option string) (d : string) : string :=
  if truthy_str x then default d x else d.

(** ** The client *)

(** What the code runs against: the backend (an abstract state and its
    reaction to one HTTP call) and the build-time environment variable
    [process.env.REACT_APP_API_URL] ([None] when unset). *)
Class Environment : Type := {
  ServerState : Type;
  serve : ServerState → HttpCall → NetResult * ServerState;
  REACT_APP_API_URL : option string
}.

Section Client.

Context `{Environment}.

(** The browser state the client reads and writes, together with the
    backend and the trace of the HTTP calls made so far.
    [defaults_common] is [api.defaults.headers.common]. *)
Record World : Type := mkWorld {
  localStorage : gmap string string;
  defaults_common : gmap string string;
  location_href : string;
  server : ServerState;
  trace : list HttpCall
}.

(** *** Promises as state transformers *)

Definition M (A : Type) : Type := World → Outcome A * World.

Definition ret {A} (a : A) : M A := λ w, (Resolved a, w).
Definition reject {A} (e : JsError) : M A := λ w, (Rejected e, w).
Definition unsettled {A} : M A := λ w, (Unsettled, w).

Definition bind {A B} (m : M A) (k : A → M B) : M B := λ w,
  match m w with
  | (Resolved a, w') => k a w'
  | (Rejected e, w') => (Rejected e, w')
  | (Unsettled, w') => (Unsettled, w')
  end.

(** [try { body } catch (e) { handler }] *)
Definition try_catch {A} (body : M A) (handler : JsError → M A) : M A := λ w,
  match body w with
  | (Rejected e, w') => handler e w'
  | r => r
  end.

(** [promise.then(onFulfilled, onRejected)] *)
Definition then_ {A B} (m : M A) (onFulfilled : A → M B)
    (onRejected : JsError → M B) : M B := λ w,
  match m w with
  | (Resolved a, w') => onFulfilled a w'
  | (Rejected e, w') => onRejected e w'
  | (Unsettled, w') => (Unsettled, w')
  end.

#[global] Instance M_ret : MRet M := @ret.
#[global] Instance M_bind : MBind M := λ A B k m, bind m k.

(** *** Browser and instance state *)

Definition getItem (k : string) : M (option string) := λ w,
  (Resolved (localStorage w !! k), w).

Definition setItem (k v : string) : M unit := λ w,
  (Resolved (),
   mkWorld (<[k:=v]> (localStorage w)) (defaults_common w) (location_href w)
           (server w) (trace w)).

Definition removeItem (k : string) : M unit := λ w,
  (Resolved (),
   mkWorld (delete k (localStorage w)) (defaults_common w) (location_href w)
           (server w) (trace w)).

(** [api.defaults.headers.common[k] = v] *)
Definition set_default_header (k v : string) : M unit := λ w,
  (Resolved (),
   mkWorld (localStorage w) (<[k:=v]> (defaults_common w)) (location_href w)
           (server w) (trace w)).

(** [delete api.defaults.headers.common[k]] *)
Definition delete_default_header (k : string) : M unit := λ w,
  (Resolved (),
   mkWorld (localStorage w) (delete k (defaults_common w)) (location_href w)
           (server w) (trace w)).

(** [window.location.href = url] *)
Definition set_location_href (url : string) : M unit := λ w,
  (Resolved (),
   mkWorld (localStorage w) (defaults_common w) url (server w) (trace w)).

(** *** The transport

    One HTTP call: the backend reacts, the call is recorded, and the
    promise resolves for a status in 2xx (axios' default [validateStatus])
    and rejects with an [AxiosError] otherwise. *)

Definition call_of (c : Config) : HttpCall :=
  mkCall (cfg_method c) (cfg_baseURL c) (cfg_url c) (cfg_headers c) (cfg_data c).

Definition valid_status (s : Z) : bool := (200 <=? s) && (s <? 300).

Definition settle (c : Config) (r : NetResult) : Outcome Response :=
  match r with
  | NetResponse s d =>
      if valid_status s then Resolved (mkResponse s d c)
      else Rejected (AxiosError "Request failed" (Some (mkResponse s d c)) (Some c))
  | NetFailure msg => Rejected (AxiosError msg None (Some c))
  end.

Definition dispatchRequest (c : Config) : M Response := λ w,
  let '(r, s') := serve (server w) (call_of c) in
  (settle c r,
   mkWorld (localStorage w) (defaults_common w) (location_href w) s'
           (trace w ++ [call_of c])).

(** [axios.post(url, data)] on the global axios object, which has no base
    URL and no interceptors. *)
Definition axios_post (url : string) (data : JsVal) : M Response :=
  dispatchRequest (mkConfig POST url None ∅ data false).

(** *** The instance [api] *)

(** [baseURL: process.env.REACT_APP_API_URL || 'http://localhost:8001/api'] *)
Definition baseURL : string := env_or REACT_APP_API_URL "http://localhost:8001/api".

(** [headers: { 'Content-Type': 'application/json' }] *)
Definition instance_headers : gmap string string :=
  {[ "Content-Type" := "application/json" ]}.

(** [`${process.env.REACT_APP_API_URL || 'http://localhost:8000/api'}/token/refresh/`] *)
Definition refresh_url : string :=
  env_or REACT_APP_API_URL "http://localhost:8000/api" +:+ "/token/refresh/".

(** The instance defaults are merged under the config of a request: the
    request's own headers win over the instance headers, which win over
    [defaults.headers.common]; properties axios does not know, such as
    [_retry], are kept. *)
Definition mergeConfig (c : Config) : M Config := λ w,
  (Resolved
     (mkConfig (cfg_method c) (cfg_url c)
               (Some (default baseURL (cfg_baseURL c)))
               (cfg_headers c ∪ instance_headers ∪ defaults_common w)
               (cfg_data c) (cfg_retry c)),
   w).

(** Request interceptor, fulfilled handler. *)
Definition request_fulfilled (config : Config) : M Config :=
  token ← getItem "token";
  refreshToken ← getItem "refreshToken";
  if truthy_str token
  then ret (set_header "Authorization" ("Bearer " +:+ default "" token) config)
  else ret config.

(** Request interceptor, rejected handler. *)
Definition request_rejected (error : JsError) : M Config := reject error.

(** Response interceptor, fulfilled handler. *)
Definition response_fulfilled (response : Response) : M Response := ret response.

(** The body of the [try] block up to the operand of its [return]: it
    yields the config the request is retried with. *)
Definition refresh_access_token (originalRequest : Config) : M Config :=
  refreshToken ← getItem "refreshToken";
  if negb (truthy_str refreshToken)
  then reject (Error "No refresh token available")
  else
    response ← axios_post refresh_url
                 (JObj [("refresh", JStr (default "" refreshToken))]);
    match get_prop (res_data response) "access" with
    | None => reject (TypeError "Cannot destructure property 'access'")
    | Some access =>
        setItem "token" (to_string access);;
        set_default_header "Authorization" ("Bearer " +:+ to_string access);;
        ret (set_header "Authorization" ("Bearer " +:+ to_string access)
               originalRequest)
    end.

(** The [catch] block. *)
Definition force_logout (refreshError : JsError) : M Config :=
  removeItem "token";;
  removeItem "refreshToken";;
  delete_default_header "Authorization";;
  set_location_href "/login";;
  reject refreshError.

(** Response interceptor, rejected handler.  [api] is the instance itself,
    called for the retry.  [return api(originalRequest)] hands the promise
    of the retry back without awaiting it inside the [try], so a rejection
    of the retry is not seen by the [catch]: the retry is sequenced after
    the [try_catch]. *)
Definition response_rejected (api : Config → M Response) (error : JsError)
    : M Response :=
  if status_is_401 error then
    match err_config error with
    | None => reject (TypeError "Cannot read properties of undefined (reading '_retry')")
    | Some originalRequest =>
        if negb (cfg_retry originalRequest) then
          let originalRequest := set_retry true originalRequest in
          originalRequest ←
            try_catch (refresh_access_token originalRequest) force_logout;
          api originalRequest
        else reject error
    end
  else reject error.

(** [api.request(config)]: merge the defaults, run the request interceptor,
    dispatch, run the response interceptor.  The retry inside the response
    interceptor calls the instance again, which is what the fuel counts. *)
Fixpoint api_request (fuel : nat) (config : Config) : M Response :=
  match fuel with
  | O => unsettled
  | S fuel' =>
      then_ (config ← then_ (mergeConfig config) request_fulfilled request_rejected;
             dispatchRequest config)
            response_fulfilled
            (response_rejected (api_request fuel'))
  end.

(** The instance.  Two units of fuel are all a request can use, whatever the
    backend does: the retry carries [_retry] and is not retried again. *)
Definition api : Config → M Response := api_request 2.

Definition api_get (url : string) : M Response :=
  api (mkConfig GET url None ∅ JUndefined false).
Definition api_delete (url : string) : M Response :=
  api (mkConfig DELETE url None ∅ JUndefined false).
Definition api_post (url : string) (data : JsVal) : M Response :=
  api (mkConfig POST url None ∅ data false).
Definition api_put (url : string) (data : JsVal) : M Response :=
  api (mkConfig PUT url None ∅ data false).

(** *** Authentication API calls *)

Definition login (email password : string) : M JsVal :=
  response ← api_post "/token/"
               (JObj [("username", JStr email); ("password", JStr password)]);
  mret (res_data response).

Definition register (userData : JsVal) : M JsVal :=
  response ← api_post "/auth/register/" userData;
  mret (res_data response).

Definition getUserProfile : M JsVal :=
  response ← api_get "/auth/profile/";
  mret (res_data response).

(** *** Thermostat API calls *)

Definition getThermostats : M JsVal :=
  response ← api_get "/thermostats/";
  mret (res_data response).

Definition getThermostatsByUser : M JsVal :=
  response ← api_get "/thermostats/";
  mret (res_data response).

Definition getThermostatsByProperty (propertyId : string) : M JsVal :=
  response ← api_get ("/properties/" +:+ propertyId +:+ "/thermostats/");
  mret (res_data response).

Definition getThermostat (id : string) : M JsVal :=
  response ← api_get ("/thermostats/" +:+ id +:+ "/");
  mret (res_data response).

Definition addThermostat (thermostatData : JsVal) : M JsVal :=
  response ← api_post "/thermostats/" thermostatData;
  mret (res_data response).

Definition updateThermostat (id : string) (thermostatData : JsVal) : M JsVal :=
  response ← api_put ("/thermostats/" +:+ id +:+ "/") thermostatData;
  mret (res_data response).

Definition deleteThermostat (id : string) : M JsVal :=
  response ← api_delete ("/thermostats/" +:+ id +:+ "/");
  mret (res_data response).

Definition setThermostatTemperature (id : string) (temperature : JsVal) : M JsVal :=
  response ← api_post ("/thermostats/" +:+ id +:+ "/set_temperature/")
               (JObj [("temperature", temperature)]);
  mret (res_data response).

Definition setThermostatMode (id : string) (mode : string) : M JsVal :=
  response ← api_post ("/thermostats/" +:+ id +:+ "/set_mode/")
               (JObj [("mode", JStr mode)]);
  mret (res_data response).

(** *** Property API calls *)

Definition getProperties : M JsVal :=
  response ← api_get "/properties/";
  mret (res_data response).

Definition getProperty (id : string) : M JsVal :=
  response ← api_get ("/properties/" +:+ id +:+ "/");
  mret (res_data response).

Definition addProperty (propertyData : JsVal) : M JsVal :=
  response ← api_post "/properties/" propertyData;
  mret (res_data response).

Definition updateProperty (id : string) (propertyData : JsVal) : M JsVal :=
  response ← api_put ("/properties/" +:+ id +:+ "/") propertyData;
  mret (res_data response).

Definition deleteProperty (id : string) : M JsVal :=
  response ← api_delete ("/properties/" +:+ id +:+ "/");
  mret (res_data response).

(** *** Calendar API calls *)

Definition getCalendarEvents (propertyId : string) : M JsVal :=
  response ← api_get ("/properties/" +:+ propertyId +:+ "/calendar/");
  mret (res_data response).

Definition addCalendarEvent (eventData : JsVal) : M JsVal :=
  match get_prop eventData "property" with
  | None => reject (TypeError "Cannot read properties of undefined (reading 'property')")
  | Some property =>
      if negb (truthy property)
      then reject (Error "eventData.property is required")
      else
        response ← api_post ("/properties/" +:+ to_string property +:+ "/calendar/")
                     eventData;
        mret (res_data response)
  end.

Definition updateCalendarEvent (id : string) (eventData : JsVal) : M JsVal :=
  response ← api_put ("/calendar-events/" +:+ id +:+ "/") eventData;
  mret (res_data response).

Definition deleteCalendarEvent (id : string) : M JsVal :=
  response ← api_delete ("/calendar-events/" +:+ id +:+ "/");
  mret (res_data response).

(** *** Statistics API calls

    [timeRange] has the default ['month'], used when the argument is left
    out ([None]). *)

Definition getStatistics (timeRange : option string) : M JsVal :=
  let timeRange := default "month" timeRange in
  response ← api_get ("/statistics/?period=" +:+ timeRange);
  mret (res_data response).

Definition getPropertyStatistics (propertyId : string) (timeRange : option string)
    : M JsVal :=
  let timeRange := default "month" timeRange in
  response ← api_get ("/properties/" +:+ propertyId +:+ "/statistics/?period="
                        +:+ timeRange);
  mret (res_data response).

Definition getThermostatStatistics (thermostatId : string)
    (timeRange : option string) : M JsVal :=
  let timeRange := default "month" timeRange in
  response ← api_get ("/statistics/?thermostat_id=" +:+ thermostatId +:+ "&period="
                        +:+ timeRange);
  mret (res_data response).

(** *** The wrapper as the specification describes it

    A direct pass-through: one request to the endpoint with the argument as
    its body, and the body of the response as the result. *)
Definition passthrough (method : Method) (url : string) (data : JsVal) : M JsVal :=
  response ← api (mkConfig method url None ∅ data false);
  mret (res_data response).

(** The config that reaches the transport: the defaults merged in, then the
    request interceptor applied. *)
Definition sent_config (c : Config) (w : World) : Config :=
  let merged :=
    mkConfig (cfg_method c) (cfg_url c) (Some (default baseURL (cfg_baseURL c)))
             (cfg_headers c ∪ instance_headers ∪ defaults_common w)
             (cfg_data c) (cfg_retry c) in
  if truthy_str (localStorage w !! "token")
  then set_header "Authorization"
         ("Bearer " +:+ default "" (localStorage w !! "token")) merged
  else merged.

(** The call that posts the refresh token. *)
Definition refresh_call (refreshToken : string) : HttpCall :=
  mkCall POST None refresh_url ∅ (JObj [("refresh", JStr refreshToken)]).

(** [k] is a call for the request [c]: same method, URL and body, under the
    base URL of [c] or, when [c] has none, that of the instance. *)
Definition request_call (c : Config) (k : HttpCall) : Prop :=
  call_method k = cfg_method c
  ∧ call_baseURL k = Some (default baseURL (cfg_baseURL c))
  ∧ call_url k = cfg_url c
  ∧ call_data k = cfg_data c.

(** Calls to the token-refresh endpoint, as made by the global axios object. *)
Definition is_refresh_call (c : HttpCall) : bool :=
  match call_method c with
  | POST => String.eqb (call_url c) refresh_url && bool_decide (call_baseURL c = None)
  | _ => false
  end.

(** *** What a request can do to the browser state *)

(** Storage, instance defaults and location are as they were. *)
Definition same_browser (w w' : World) : Prop :=
  localStorage w' = localStorage w
  ∧ defaults_common w' = defaults_common w
  ∧ location_href w' = location_href w.

(** The effect of a successful refresh: a new access token in the storage
    and in the default Authorization header. *)
Definition refreshed (w w' : World) : Prop :=
  ∃ access,
    localStorage w' = <["token" := access]> (localStorage w)
    ∧ defaults_common w' = <["Authorization" := "Bearer " +:+ access]> (defaults_common w)
    ∧ location_href w' = location_href w.

(** The effect of the [catch] block. *)
Definition logged_out (w w' : World) : Prop :=
  localStorage w' = delete "refreshToken" (delete "token" (localStorage w))
  ∧ defaults_common w' = delete "Authorization" (defaults_common w)
  ∧ location_href w' = "/login".

(** A default Authorization header, when there is one, is the bearer header
    of the stored token. *)
Definition token_header_consistent (w : World) : Prop :=
  ∀ v, defaults_common w !! "Authorization" = Some v →
       ∃ token, localStorage w !! "token" = Some token ∧ v = "Bearer " +:+ token.

End Client.

(** ** The vendor-accounts page *)

Module VendorsPage.

(** How an awaited promise of the page ends: with a value, or with the
    value the [catch] clause binds ([err: any]). *)
Inductive Settled (A : Type) : Type :=
| Fulfilled (a : A)
| Thrown (err : JsVal).
Arguments Fulfilled {A} a.
Arguments Thrown {A} err.

(** The page calls [api.vendors.<vendor>.listAccounts] and [.createAccount],
    which the API client module at hand does not define: the six operations
    are parameters, each a transition on an abstract backend state.
    [Number] is the JavaScript builtin. *)
Class VendorsApi : Type := {
  Backend : Type;
  cielo_listAccounts : Backend → Settled JsVal * Backend;
  nest_listAccounts : Backend → Settled JsVal * Backend;
  nethome_listAccounts : Backend → Settled JsVal * Backend;
  cielo_createAccount : JsVal → Backend → Settled JsVal * Backend;
  nest_createAccount : JsVal → Backend → Settled JsVal * Backend;
  nethome_createAccount : JsVal → Backend → Settled JsVal * Backend;
  Number : string → JsVal
}.

(** The [useState] cells of the component. *)
Record Accounts : Type := mkAccounts {
  cieloAccounts : JsVal;
  nestAccounts : JsVal;
  nethomeAccounts : JsVal
}.

Record CieloForm : Type := mkCieloForm {
  cieloApiKey : string;
  cieloAccountName : string;
  cieloPropertyId : string
}.

Record NestForm : Type := mkNestForm {
  nestAccessToken : string;
  nestRefreshToken : string;
  nestExpiresAt : string;
  nestAccountName : string;
  nestPropertyId : string
}.

Record NetHomeForm : Type := mkNetHomeForm {
  nethomeApiKey : string;
  nethomeAccountName : string;
  nethomePropertyId : string
}.

Record State : Type := mkState {
  accounts : Accounts;
  cielo : CieloForm;
  nest : NestForm;
  nethome : NetHomeForm;
  error : JsVal;
  loading : bool
}.

Section Page.

Context `{VendorsApi}.

Definition P (A : Type) : Type := State * Backend → Settled A * (State * Backend).

Definition done {A} (a : A) : P A := λ sb, (Fulfilled a, sb).
Definition throw {A} (err : JsVal) : P A := λ sb, (Thrown err, sb).

#[global] Instance P_ret : MRet P := @done.
#[global] Instance P_bind : MBind P := λ A B k m sb,
  match m sb with
  | (Fulfilled a, sb') => k a sb'
  | (Thrown err, sb') => (Thrown err, sb')
  end.

(** [try { body } catch (err) { handler }] *)
Definition try_catch {A} (body : P A) (handler : JsVal → P A) : P A := λ sb,
  match body sb with
  | (Thrown err, sb') => handler err sb'
  | r => r
  end.

(** [try { body } finally { cleanup }] *)
Definition try_finally {A} (body : P A) (cleanup : P unit) : P A := λ sb,
  let '(r, sb') := body sb in
  match cleanup sb' with
  | (Fulfilled _, sb'') => (r, sb'')
  | (Thrown err, sb'') => (Thrown err, sb'')
  end.

(** [await] of a call that runs on the backend. *)
Definition await {A} (call : Backend → Settled A * Backend) : P A := λ sb,
  let '(r, b') := call sb.2 in (r, (sb.1, b')).

Definition modify (f : State → State) : P unit := λ sb, (Fulfilled (), (f sb.1, sb.2)).

Definition get_state : P State := λ sb, (Fulfilled sb.1, sb).

(** *** State setters *)

Definition setCieloAccounts (v : JsVal) : P unit :=
  modify (λ s, mkState (mkAccounts v (nestAccounts (accounts s))
                          (nethomeAccounts (accounts s)))
                 (cielo s) (nest s) (nethome s) (error s) (loading s)).
Definition setNestAccounts (v : JsVal) : P unit :=
  modify (λ s, mkState (mkAccounts (cieloAccounts (accounts s)) v
                          (nethomeAccounts (accounts s)))
                 (cielo s) (nest s) (nethome s) (error s) (loading s)).
Definition setNetHomeAccounts (v : JsVal) : P unit :=
  modify (λ s, mkState (mkAccounts (cieloAccounts (accounts s))
                          (nestAccounts (accounts s)) v)
                 (cielo s) (nest s) (nethome s) (error s) (loading s)).

Definition set_cielo (f : CieloForm → CieloForm) : P unit :=
  modify (λ s, mkState (accounts s) (f (cielo s)) (nest s) (nethome s)
                 (error s) (loading s)).
Definition setCieloApiKey (v : string) : P unit :=
  set_cielo (λ f, mkCieloForm v (cieloAccountName f) (cieloPropertyId f)).
Definition setCieloAccountName (v : string) : P unit :=
  set_cielo (λ f, mkCieloForm (cieloApiKey f) v (cieloPropertyId f)).
Definition setCieloPropertyId (v : string) : P unit :=
  set_cielo (λ f, mkCieloForm (cieloApiKey f) (cieloAccountName f) v).

Definition set_nest (f : NestForm → NestForm) : P unit :=
  modify (λ s, mkState (accounts s) (cielo s) (f (nest s)) (nethome s)
                 (error s) (loading s)).
Definition setNestAccessToken (v : string) : P unit :=
  set_nest (λ f, mkNestForm v (nestRefreshToken f) (nestExpiresAt f)
                   (nestAccountName f) (nestPropertyId f)).
Definition setNestRefreshToken (v : string) : P unit :=
  set_nest (λ f, mkNestForm (nestAccessToken f) v (nestExpiresAt f)
                   (nestAccountName f) (nestPropertyId f)).
Definition setNestExpiresAt (v : string) : P unit :=
  set_nest (λ f, mkNestForm (nestAccessToken f) (nestRefreshToken f) v
                   (nestAccountName f) (nestPropertyId f)).
Definition setNestAccountName (v : string) : P unit :=
  set_nest (λ f, mkNestForm (nestAccessToken f) (nestRefreshToken f)
                   (nestExpiresAt f) v (nestPropertyId f)).
Definition setNestPropertyId (v : string) : P unit :=
  set_nest (λ f, mkNestForm (nestAccessToken f) (nestRefreshToken f)
                   (nestExpiresAt f) (nestAccountName f) v).

Definition set_nethome (f : NetHomeForm → NetHomeForm) : P unit :=
  modify (λ s, mkState (accounts s) (cielo s) (nest s) (f (nethome s))
                 (error s) (loading s)).
Definition setNetHomeApiKey (v : string) : P unit :=
  set_nethome (λ f, mkNetHomeForm v (nethomeAccountName f) (nethomePropertyId f)).
Definition setNetHomeAccountName (v : string) : P unit :=
  set_nethome (λ f, mkNetHomeForm (nethomeApiKey f) v (nethomePropertyId f)).
Definition setNetHomePropertyId (v : string) : P unit :=
  set_nethome (λ f, mkNetHomeForm (nethomeApiKey f) (nethomeAccountName f) v).

Definition setError (v : JsVal) : P unit :=
  modify (λ s, mkState (accounts s) (cielo s) (nest s) (nethome s) v (loading s)).
Definition setLoading (v : bool) : P unit :=
  modify (λ s, mkState (accounts s) (cielo s) (nest s) (nethome s) (error s) v).

(** *** [Promise.all]

    The three calls are started in the order written; [order] lists the
    positions of the promises in the order they settle.  The combined
    promise rejects with the first rejection to happen and otherwise
    resolves with the values in the order of the calls. *)
Fixpoint first_rejection (order : list nat) (outs : list (Settled JsVal))
    : option JsVal :=
  match order with
  | [] => None
  | i :: rest =>
      match outs !! i with
      | Some (Thrown err) => Some err
      | _ => first_rejection rest outs
      end
  end.

Definition fulfilled_value (o : Settled JsVal) : option JsVal :=
  match o with Fulfilled v => Some v | Thrown _ => None end.

Definition promise_all (order : list nat) (outs : list (Settled JsVal))
    : Settled (list JsVal) :=
  match first_rejection (order ++ seq 0 (length outs)) outs with
  | Some err => Thrown err
  | None => Fulfilled (omap fulfilled_value outs)
  end.

(** [Promise.all([cielo.listAccounts(), nest.listAccounts(), nethome.listAccounts()])] *)
Definition all_accounts (order : list nat) (b : Backend)
    : Settled (list JsVal) * Backend :=
  let '(r1, b1) := cielo_listAccounts b in
  let '(r2, b2) := nest_listAccounts b1 in
  let '(r3, b3) := nethome_listAccounts b2 in
  (promise_all order [r1; r2; r3], b3).

(** [setError(err.message || fallback)] *)
Definition report (fallback : string) (err : JsVal) : P unit :=
  match get_prop err "message" with
  | None => throw (JObj [("name", JStr "TypeError");
                         ("message", JStr "Cannot read properties (reading 'message')")])
  | Some message => setError (or_else message (JStr fallback))
  end.

(** [fetchAccounts] of the mount effect. *)
Definition fetchAccounts (order : list nat) : P unit :=
  try_finally
    (try_catch
       (setLoading true;;
        setError JNull;;
        results ← await (all_accounts order);
        let cielo := default JUndefined (results !! 0%nat) in
        let nest := default JUndefined (results !! 1%nat) in
        let nethome := default JUndefined (results !! 2%nat) in
        setCieloAccounts cielo;;
        setNestAccounts nest;;
        setNetHomeAccounts nethome)
       (report "Failed to load vendor accounts"))
    (setLoading false).

(** The mount effect; [user] is the role of the signed-in user, [None]
    when there is no user. *)
Definition mount_effect (user : option string) (order : list nat) : P unit :=
  match user with
  | Some "admin" => fetchAccounts order
  | _ => done ()
  end.

Definition refreshCielo : P unit :=
  accounts ← await cielo_listAccounts; setCieloAccounts accounts.
Definition refreshNest : P unit :=
  accounts ← await nest_listAccounts; setNestAccounts accounts.
Definition refreshNetHome : P unit :=
  accounts ← await nethome_listAccounts; setNetHomeAccounts accounts.

(** [s || undefined] *)
Definition or_undefined (s : string) : JsVal :=
  or_else (JStr s) JUndefined.

(** [s ? Number(s) : undefined] *)
Definition number_or_undefined (s : string) : JsVal :=
  if truthy (JStr s) then Number s else JUndefined.

Definition handleCieloCreate : P unit :=
  s ← get_state;
  if negb (truthy (JStr (cieloApiKey (cielo s))))
  then setError (JStr "Cielo API key is required")
  else
    try_catch
      (setError JNull;;
       await (cielo_createAccount
                (JObj [("api_key", JStr (cieloApiKey (cielo s)));
                       ("account_name", or_undefined (cieloAccountName (cielo s)));
                       ("property_id", number_or_undefined (cieloPropertyId (cielo s)))]));;
       setCieloApiKey "";;
       setCieloAccountName "";;
       setCieloPropertyId "";;
       refreshCielo)
      (report "Failed to create Cielo account").

Definition handleNestCreate : P unit :=
  s ← get_state;
  if negb (truthy (JStr (nestAccessToken (nest s))))
     || negb (truthy (JStr (nestRefreshToken (nest s))))
     || negb (truthy (JStr (nestExpiresAt (nest s))))
  then setError (JStr "Nest access token, refresh token and expires_at are required")
  else
    try_catch
      (setError JNull;;
       await (nest_createAccount
                (JObj [("access_token", JStr (nestAccessToken (nest s)));
                       ("refresh_token", JStr (nestRefreshToken (nest s)));
                       ("expires_at", JStr (nestExpiresAt (nest s)));
                       ("account_name", or_undefined (nestAccountName (nest s)));
                       ("property_id", number_or_undefined (nestPropertyId (nest s)))]));;
       setNestAccessToken "";;
       setNestRefreshToken "";;
       setNestExpiresAt "";;
       setNestAccountName "";;
       setNestPropertyId "";;
       refreshNest)
      (report "Failed to create Nest account").

Definition handleNetHomeCreate : P unit :=
  s ← get_state;
  if negb (truthy (JStr (nethomeApiKey (nethome s))))
  then setError (JStr "NetHome API key is required")
  else
    try_catch
      (setError JNull;;
       await (nethome_createAccount
                (JObj [("api_key", JStr (nethomeApiKey (nethome s)));
                       ("account_name", or_undefined (nethomeAccountName (nethome s)));
                       ("property_id", number_or_undefined (nethomePropertyId (nethome s)))]));;
       setNetHomeApiKey "";;
       setNetHomeAccountName "";;
       setNetHomePropertyId "";;
       refreshNetHome)
      (report "Failed to create NetHome account").

(** The state of the page with the error cell and the loading flag replaced. *)
Definition with_error (s : State) (e : JsVal) (l : bool) : State :=
  mkState (accounts s) (cielo s) (nest s) (nethome s) e l.

Definition cielo_payload (s : State) : JsVal :=
  JObj [("api_key", JStr (cieloApiKey (cielo s)));
        ("account_name", or_undefined (cieloAccountName (cielo s)));
        ("property_id", number_or_undefined (cieloPropertyId (cielo s)))].

Definition nest_payload (s : State) : JsVal :=
  JObj [("access_token", JStr (nestAccessToken (nest s)));
        ("refresh_token", JStr (nestRefreshToken (nest s)));
        ("expires_at", JStr (nestExpiresAt (nest s)));
        ("account_name", or_undefined (nestAccountName (nest s)));
        ("property_id", number_or_undefined (nestPropertyId (nest s)))].

Definition nethome_payload (s : State) : JsVal :=
  JObj [("api_key", JStr (nethomeApiKey (nethome s)));
        ("account_name", or_undefined (nethomeAccountName (nethome s)));
        ("property_id", number_or_undefined (nethomePropertyId (nethome s)))].

(** *** What is rendered

    [!user || user.role !== 'admin'] *)
Definition access_denied (user : option string) : bool :=
  match user with
  | None => true
  | Some role => negb (String.eqb role "admin")
  end.

(** What React puts on the page for a child [{v}]: nothing for [undefined],
    [null], a boolean and the empty string, the text for a string and for a
    number; an object is not a valid child and makes rendering throw
    ([None]). *)
Inductive Child : Type :=
| NoText
| Text (text : string).

Definition render_child (v : JsVal) : option Child :=
  match v with
  | JUndefined | JNull | JBool _ => Some NoText
  | JStr s => if String.eqb s "" then Some NoText else Some (Text s)
  | JNum _ => Some (Text (to_string v))
  | JObj _ => None
  end.

(** The place of [{error && (<div ...>{error}</div>)}]: for a truthy
    [error] the box with [error] as its child; for a falsy one the value of
    [error] itself as a bare child, outside any box. *)
Inductive ErrorSlot : Type :=
| Bare (child : Child)
| Box (child : Child).

(** The parts of the rendered page that depend on the user, the loading flag
    and the error cell: the access-denied page or the vendor page; on the
    latter the line [Loading vendor accounts...] ([loading && ...]) and the
    error slot; [RenderError] when the child of the error slot is not a
    valid child and rendering throws.  The account lists and the forms are
    not part of this view. *)
Inductive View : Type :=
| AccessDenied
| VendorAccounts (loadingLine : bool) (errorSlot : ErrorSlot)
| RenderError.

Definition render (user : option string) (s : State) : View :=
  if access_denied user then AccessDenied
  else
    match render_child (error s) with
    | None => RenderError
    | Some child =>
        VendorAccounts (loading s) (if truthy (error s) then Box child else Bare child)
    end.

End Page.

End VendorsPage.

(** ** Concrete environments, used to run the definitions *)

(** A backend that answers from a script, one entry per call, and fails at
    the network level once the script is exhausted.  The environment variable
    is unset. *)
Definition scripted : Environment := {|
  ServerState := list NetResult;
  serve := λ script _,
    match script with
    | r :: rest => (r, rest)
    | [] => (NetFailure "Network Error", [])
    end;
  REACT_APP_API_URL := None
|}.

(** A backend that answers every call with status 200 and the body it was
    sent. *)
Definition echo : Environment := {|
  ServerState := unit;
  serve := λ _ c, (NetResponse 200 (call_data c), ());
  REACT_APP_API_URL := None
|}.

Definition fresh_world `{Environment} (storage : gmap string string)
    (s : ServerState) : World :=
  mkWorld storage ∅ "/" s [].

Definition plain_get (url : string) : Config := mkConfig GET url None ∅ JUndefined false.

(** A request to [/thermostats/] as it comes back in a 401 error. *)
Definition thermostats_request : Config :=
  mkConfig GET "/thermostats/" (Some "http://localhost:8001/api")
           {[ "Authorization" := "Bearer old" ]} JUndefined false.

Definition unauthorized (c : Config) : JsError :=
  AxiosError "Request failed" (Some (mkResponse 401 JNull c)) (Some c).

Definition server_error (c : Config) : JsError :=
  AxiosError "Request failed" (Some (mkResponse 500 JNull c)) (Some c).

Definition scripted_world (storage : gmap string string) (script : list NetResult)
    : World (H := scripted) :=
  fresh_world (H := scripted) storage script.

Definition echo_world (storage : gmap string string) : World (H := echo) :=
  fresh_world (H := echo) storage ().

Definition signed_in : gmap string string :=
  {[ "token" := "old"; "refreshToken" := "r1" ]}.

(** A vendor API whose Cielo listing fails with a network error and whose
    Cielo account creation fails with an error object that has no message;
    the other operations succeed with empty results. *)
Definition flaky_vendors : VendorsPage.VendorsApi := {|
  VendorsPage.Backend := unit;
  VendorsPage.cielo_listAccounts := λ b,
    (VendorsPage.Thrown (JObj [("message", JStr "Network Error")]), b);
  VendorsPage.nest_listAccounts := λ b, (VendorsPage.Fulfilled (JObj []), b);
  VendorsPage.nethome_listAccounts := λ b, (VendorsPage.Fulfilled (JObj []), b);
  VendorsPage.cielo_createAccount := λ _ b, (VendorsPage.Thrown (JObj []), b);
  VendorsPage.nest_createAccount := λ _ b, (VendorsPage.Fulfilled JNull, b);
  VendorsPage.nethome_createAccount := λ _ b, (VendorsPage.Thrown JNull, b);
  VendorsPage.Number := λ _, JUndefined
|}.

(** A vendor API whose Cielo operations reject with [null] and
    [undefined]; the other operations succeed. *)
Definition null_vendors : VendorsPage.VendorsApi := {|
  VendorsPage.Backend := unit;
  VendorsPage.cielo_listAccounts := λ b, (VendorsPage.Thrown JNull, b);
  VendorsPage.nest_listAccounts := λ b, (VendorsPage.Fulfilled (JObj []), b);
  VendorsPage.nethome_listAccounts := λ b, (VendorsPage.Fulfilled (JObj []), b);
  VendorsPage.cielo_createAccount := λ _ b, (VendorsPage.Thrown JUndefined, b);
  VendorsPage.nest_createAccount := λ _ b, (VendorsPage.Fulfilled JNull, b);
  VendorsPage.nethome_createAccount := λ _ b, (VendorsPage.Fulfilled JNull, b);
  VendorsPage.Number := λ _, JUndefined
|}.

(** The page with the Cielo and NetHome keys filled in. *)
Definition filled_form : VendorsPage.State :=
  VendorsPage.mkState
    (VendorsPage.mkAccounts (JObj []) (JObj []) (JObj []))
    (VendorsPage.mkCieloForm "key-1" "" "")
    (VendorsPage.mkNestForm "" "" "" "" "")
    (VendorsPage.mkNetHomeForm "key-2" "" "")
    JNull false.

(** An environment with the variable set. *)
Definition staging : Environment := {|
  ServerState := list NetResult;
  serve := λ script _,
    match script with
    | r :: rest => (r, rest)
    | [] => (NetFailure "Network Error", [])
    end;
  REACT_APP_API_URL := Some "https://staging.example.org/api"
|}.

Definition staging_world (storage : gmap string string) (script : list NetResult)
    : World (H := staging) :=
  fresh_world (H := staging) storage script.

(** A signed-in browser whose default header matches the stored token. *)
Definition signed_in_world (script : list NetResult) : World (H := scripted) :=
  mkWorld (H := scripted) signed_in {[ "Authorization" := "Bearer old" ]} "/dashboard"
    script [].

(** A vendor API on which every operation succeeds; listings return the
    name of the vendor. *)
Definition healthy_vendors : VendorsPage.VendorsApi := {|
  VendorsPage.Backend := nat;
  VendorsPage.cielo_listAccounts := λ b, (VendorsPage.Fulfilled (JStr "cielo"), S b);
  VendorsPage.nest_listAccounts := λ b, (VendorsPage.Fulfilled (JStr "nest"), S b);
  VendorsPage.nethome_listAccounts := λ b, (VendorsPage.Fulfilled (JStr "nethome"), S b);
  VendorsPage.cielo_createAccount := λ _ b, (VendorsPage.Fulfilled JNull, S b);
  VendorsPage.nest_createAccount := λ _ b, (VendorsPage.Fulfilled JNull, S b);
  VendorsPage.nethome_createAccount := λ _ b, (VendorsPage.Fulfilled JNull, S b);
  VendorsPage.Number := λ _, JUndefined
|}.

(** * Properties of the client *)

Section JsFacts.

Lemma truthy_str_Some (o : option string) :
  truthy_str o = true ↔ ∃ s, o = Some s ∧ s ≠ "".
Proof.
  destruct o as [s|]; simpl.
  - rewrite negb_true_iff. split.
    + intros Hs. exists s. split; [done|]. intros ->. by rewrite String.eqb_refl in Hs.
    + intros (s' & [= <-] & Hne). by apply String.eqb_neq.
  - split; [done|]. by intros (s & ? & _).
Qed.

Lemma truthy_str_false (o : option string) :
  truthy_str o = false ↔ o = None ∨ o = Some "".
Proof.
  destruct o as [s|]; simpl.
  - rewrite negb_false_iff, String.eqb_eq. split.
    + intros ->. by right.
    + by intros [?|[= ->]].
  - split; [by left | done].
Qed.

End JsFacts.

Section ClientFacts.

Context `{Environment}.

Lemma request_fulfilled_eq (config : Config) (w : World) :
  request_fulfilled config w =
    (Resolved (if truthy_str (localStorage w !! "token")
               then set_header "Authorization"
                      ("Bearer " +:+ default "" (localStorage w !! "token")) config
               else config), w).
Proof.
  unfold request_fulfilled, mbind, M_bind, bind, getItem. simpl.
  by destruct (truthy_str (localStorage w !! "token")).
Qed.

Lemma sent_config_retry (c : Config) (w : World) :
  cfg_retry (sent_config c w) = cfg_retry c.
Proof. unfold sent_config. by destruct (truthy_str _). Qed.

Lemma sent_config_baseURL (c : Config) (w : World) :
  cfg_baseURL (sent_config c w) = Some (default baseURL (cfg_baseURL c)).
Proof. unfold sent_config. by destruct (truthy_str _). Qed.

Lemma sent_config_method (c : Config) (w : World) :
  cfg_method (sent_config c w) = cfg_method c.
Proof. unfold sent_config. by destruct (truthy_str _). Qed.

Lemma sent_config_url (c : Config) (w : World) :
  cfg_url (sent_config c w) = cfg_url c.
Proof. unfold sent_config. by destruct (truthy_str _). Qed.

Lemma sent_config_data (c : Config) (w : World) :
  cfg_data (sent_config c w) = cfg_data c.
Proof. unfold sent_config. by destruct (truthy_str _). Qed.

(** One step of the instance, with the interceptor chain unfolded. *)
Lemma api_request_S (fuel : nat) (c : Config) (w : World) :
  api_request (S fuel) c w =
    match dispatchRequest (sent_config c w) w with
    | (Resolved r, w') => (Resolved r, w')
    | (Rejected e, w') => response_rejected (api_request fuel) e w'
    | (Unsettled, w') => (Unsettled, w')
    end.
Proof.
  simpl. unfold then_ at 1. unfold mbind, M_bind, bind, then_, mergeConfig.
  rewrite request_fulfilled_eq. fold (sent_config c w).
  unfold sent_config.
  by destruct (truthy_str (localStorage w !! "token")).
Qed.

Lemma dispatchRequest_eq (c : Config) (w : World) :
  dispatchRequest c w =
    (settle c (serve (server w) (call_of c)).1,
     mkWorld (localStorage w) (defaults_common w) (location_href w)
             (serve (server w) (call_of c)).2 (trace w ++ [call_of c])).
Proof. unfold dispatchRequest. by destruct (serve _ _). Qed.

Lemma settle_rejected (c : Config) (r : NetResult) (e : JsError) :
  settle c r = Rejected e → err_config e = Some c.
Proof.
  destruct r as [s d|msg]; simpl.
  - destruct (valid_status s); [done|]. by intros [= <-].
  - by intros [= <-].
Qed.

Lemma settle_settles (c : Config) (r : NetResult) : settle c r ≠ Unsettled.
Proof. destruct r as [s d|msg]; simpl; [by destruct (valid_status s) | done]. Qed.

(** *** The request interceptor *)

(** C6 (as amended): the request interceptor attaches
    [Authorization: Bearer <token>] exactly when a non-empty token is stored
    under the key [token]; when none is stored, or the stored one is the
    empty string, the config is passed on as it is.  Nothing else of the
    config changes and the browser state is not touched. *)
Theorem request_interceptor_bearer (config : Config) (w : World) :
  (∀ token, localStorage w !! "token" = Some token → token ≠ "" →
     request_fulfilled config w =
       (Resolved (mkConfig (cfg_method config) (cfg_url config) (cfg_baseURL config)
                    (<["Authorization" := "Bearer " +:+ token]> (cfg_headers config))
                    (cfg_data config) (cfg_retry config)), w))
  ∧ (localStorage w !! "token" = None ∨ localStorage w !! "token" = Some "" →
     request_fulfilled config w = (Resolved config, w)).
Proof.
  rewrite request_fulfilled_eq. split.
  - intros token Hst Hne.
    assert (truthy_str (localStorage w !! "token") = true) as ->
      by (apply truthy_str_Some; eauto).
    by rewrite Hst.
  - intros Hno. apply truthy_str_false in Hno. by rewrite Hno.
Qed.

(** *** The response interceptor *)

Lemma response_rejected_passes (retry : Config → M Response)
    (error : JsError) (w : World) :
  status_is_401 error = false
    ∨ (∃ c, err_config error = Some c ∧ cfg_retry c = true) →
  response_rejected retry error w = (Rejected error, w).
Proof.
  intros [Hst|(c & Hc & Hr)]; unfold response_rejected.
  - by rewrite Hst.
  - rewrite Hc, Hr. simpl. by destruct (status_is_401 error).
Qed.

(** C5: an error whose status is not 401 (or that has no response at all),
    and a 401 on a request already marked [_retry], is rejected as it is:
    the whole browser state, so the stored tokens and the default
    Authorization header too, is left as it was and no HTTP call is made. *)
Theorem response_interceptor_frame (retry : Config → M Response)
    (error : JsError) (w : World) :
  status_is_401 error = false
    ∨ (∃ c, err_config error = Some c ∧ cfg_retry c = true) →
  response_rejected retry error w = (Rejected error, w)
  ∧ localStorage (response_rejected retry error w).2 !! "token"
      = localStorage w !! "token"
  ∧ localStorage (response_rejected retry error w).2 !! "refreshToken"
      = localStorage w !! "refreshToken"
  ∧ defaults_common (response_rejected retry error w).2 !! "Authorization"
      = defaults_common w !! "Authorization".
Proof.
  intros Hcase. by rewrite (response_rejected_passes retry error w Hcase).
Qed.

(** What a failed refresh has done by the time it throws: possibly one HTTP
    call, and no write to the storage, the defaults or the location. *)
Lemma refresh_failure_frame (c : Config) (w w1 : World) (e : JsError) :
  refresh_access_token c w = (Rejected e, w1) →
  localStorage w1 = localStorage w ∧ defaults_common w1 = defaults_common w
  ∧ location_href w1 = location_href w.
Proof.
  unfold refresh_access_token, mbind, M_bind, bind, getItem, axios_post.
  destruct (truthy_str (localStorage w !! "refreshToken")); simpl.
  - rewrite dispatchRequest_eq.
    destruct (settle _ _) as [r| |]; [|by intros [= _ <-]|done].
    destruct (get_prop (res_data r) "access"); [done|].
    by intros [= _ <-].
  - by intros [= _ <-].
Qed.

Lemma refresh_settles (c : Config) (w : World) :
  (refresh_access_token c w).1 ≠ Unsettled.
Proof.
  unfold refresh_access_token, mbind, M_bind, bind, getItem, axios_post.
  destruct (truthy_str (localStorage w !! "refreshToken")); simpl; [|done].
  rewrite dispatchRequest_eq.
  pose proof (settle_settles (mkConfig POST refresh_url None ∅
    (JObj [("refresh", JStr (default "" (localStorage w !! "refreshToken")))]) false)
    (serve (server w) (call_of (mkConfig POST refresh_url None ∅
    (JObj [("refresh", JStr (default "" (localStorage w !! "refreshToken")))]) false))).1)
    as Hs.
  destruct (settle _ _) as [r| |]; [|done|done].
  by destruct (get_prop (res_data r) "access").
Qed.

(** The call that posts the refresh token. *)
Lemma refresh_access_token_ok (c : Config) (w : World) (refreshToken : string)
    (status : Z) (data access : JsVal) (s' : ServerState) :
  localStorage w !! "refreshToken" = Some refreshToken →
  refreshToken ≠ "" →
  serve (server w) (refresh_call refreshToken) = (NetResponse status data, s') →
  valid_status status = true →
  get_prop data "access" = Some access →
  refresh_access_token c w =
    (Resolved (set_header "Authorization" ("Bearer " +:+ to_string access) c),
     mkWorld (<["token" := to_string access]> (localStorage w))
             (<["Authorization" := "Bearer " +:+ to_string access]> (defaults_common w))
             (location_href w) s' (trace w ++ [refresh_call refreshToken])).
Proof.
  intros Hrt Hne Hserve Hvalid Hacc.
  unfold refresh_access_token, mbind, M_bind, bind, getItem, axios_post.
  assert (truthy_str (localStorage w !! "refreshToken") = true) as ->
    by (apply truthy_str_Some; eauto).
  simpl. rewrite dispatchRequest_eq, Hrt. simpl.
  unfold refresh_call, call_of in *. simpl in *.
  rewrite Hserve. simpl. rewrite Hvalid. simpl. by rewrite Hacc.
Qed.

(** C1: a 401 on a request not yet retried, with a refresh token in the
    storage and a refresh call the backend answers successfully: the
    interceptor posts [{ refresh: <refreshToken> }] to the token-refresh
    endpoint, stores the returned access token under [token], sets the
    Authorization header of the instance defaults and of the original request
    to [Bearer <access>], and re-issues the original request (now marked
    [_retry]); its result is the result of that retry. *)
Theorem refresh_and_retry (retry : Config → M Response) (error : JsError)
    (originalRequest : Config) (w : World) (refreshToken : string)
    (status : Z) (data access : JsVal) (s' : ServerState) :
  status_is_401 error = true →
  err_config error = Some originalRequest →
  cfg_retry originalRequest = false →
  localStorage w !! "refreshToken" = Some refreshToken →
  refreshToken ≠ "" →
  serve (server w)
        (mkCall POST None refresh_url ∅ (JObj [("refresh", JStr refreshToken)]))
    = (NetResponse status data, s') →
  valid_status status = true →
  get_prop data "access" = Some access →
  response_rejected retry error w =
    retry (mkConfig (cfg_method originalRequest) (cfg_url originalRequest)
             (cfg_baseURL originalRequest)
             (<["Authorization" := "Bearer " +:+ to_string access]>
                (cfg_headers originalRequest))
             (cfg_data originalRequest) true)
          (mkWorld (<["token" := to_string access]> (localStorage w))
             (<["Authorization" := "Bearer " +:+ to_string access]> (defaults_common w))
             (location_href w) s'
             (trace w ++ [mkCall POST None refresh_url ∅
                            (JObj [("refresh", JStr refreshToken)])])).
Proof.
  intros H401 Hcfg Hretry Hrt Hne Hserve Hvalid Hacc.
  unfold response_rejected. rewrite H401, Hcfg, Hretry. simpl.
  unfold mbind, M_bind, bind, try_catch.
  by rewrite (refresh_access_token_ok _ w refreshToken status data access s').
Qed.

(** The browser state after the [catch] block has run from [w]; the backend
    and the trace are those the failed refresh left. *)
Lemma force_logout_eq (refreshError : JsError) (w : World) :
  force_logout refreshError w =
    (Rejected refreshError,
     mkWorld (delete "refreshToken" (delete "token" (localStorage w)))
             (delete "Authorization" (defaults_common w)) "/login"
             (server w) (trace w)).
Proof. reflexivity. Qed.

Lemma response_rejected_refresh_fails (retry : Config → M Response)
    (error refreshError : JsError) (originalRequest : Config) (w w1 : World) :
  status_is_401 error = true →
  err_config error = Some originalRequest →
  cfg_retry originalRequest = false →
  refresh_access_token (set_retry true originalRequest) w = (Rejected refreshError, w1) →
  response_rejected retry error w =
    (Rejected refreshError,
     mkWorld (delete "refreshToken" (delete "token" (localStorage w)))
             (delete "Authorization" (defaults_common w)) "/login"
             (server w1) (trace w1)).
Proof.
  intros H401 Hcfg Hretry Hfail.
  unfold response_rejected. rewrite H401, Hcfg, Hretry. simpl.
  unfold mbind, M_bind, bind, try_catch. rewrite Hfail, force_logout_eq.
  by destruct (refresh_failure_frame _ _ _ _ Hfail) as (-> & -> & _).
Qed.

(** C3: when the refresh triggered by a 401 fails, the interceptor removes
    [token] and [refreshToken] from the storage, deletes the default
    Authorization header, sets the location to [/login] and rejects with the
    error of the refresh.  This holds for every way the refresh can fail;
    spelled out: no (or an empty) refresh token stored, in which case no HTTP
    call is made and the error is [No refresh token available], and a refresh
    call that the backend does not answer with a 2xx status. *)
Theorem refresh_failure_forces_logout (retry : Config → M Response)
    (error : JsError) (originalRequest : Config) (w : World) :
  status_is_401 error = true →
  err_config error = Some originalRequest →
  cfg_retry originalRequest = false →
  (∀ refreshError w1,
     refresh_access_token (set_retry true originalRequest) w
       = (Rejected refreshError, w1) →
     response_rejected retry error w =
       (Rejected refreshError,
        mkWorld (delete "refreshToken" (delete "token" (localStorage w)))
                (delete "Authorization" (defaults_common w)) "/login"
                (server w1) (trace w1)))
  ∧ (localStorage w !! "refreshToken" = None
       ∨ localStorage w !! "refreshToken" = Some "" →
     response_rejected retry error w =
       (Rejected (Error "No refresh token available"),
        mkWorld (delete "refreshToken" (delete "token" (localStorage w)))
                (delete "Authorization" (defaults_common w)) "/login"
                (server w) (trace w)))
  ∧ (∀ refreshToken r s' refreshError,
       localStorage w !! "refreshToken" = Some refreshToken →
       refreshToken ≠ "" →
       serve (server w) (refresh_call refreshToken) = (r, s') →
       settle (mkConfig POST refresh_url None ∅
                 (JObj [("refresh", JStr refreshToken)]) false) r
         = Rejected refreshError →
       response_rejected retry error w =
         (Rejected refreshError,
          mkWorld (delete "refreshToken" (delete "token" (localStorage w)))
                  (delete "Authorization" (defaults_common w)) "/login"
                  s' (trace w ++ [refresh_call refreshToken]))).
Proof.
  intros H401 Hcfg Hretry. split; [|split].
  - intros refreshError w1 Hfail.
    by apply (response_rejected_refresh_fails retry error refreshError originalRequest w w1).
  - intros Hno. apply truthy_str_false in Hno.
    apply (response_rejected_refresh_fails retry error _ originalRequest w w);
      [done..|].
    unfold refresh_access_token, mbind, M_bind, bind, getItem. simpl.
    by rewrite Hno.
  - intros refreshToken r s' refreshError Hrt Hne Hserve Hsettle.
    apply (response_rejected_refresh_fails retry error refreshError originalRequest w
             (mkWorld (localStorage w) (defaults_common w) (location_href w) s'
                      (trace w ++ [refresh_call refreshToken]))); [done..|].
    unfold refresh_access_token, mbind, M_bind, bind, getItem, axios_post.
    assert (truthy_str (localStorage w !! "refreshToken") = true) as ->
      by (apply truthy_str_Some; eauto).
    simpl. rewrite dispatchRequest_eq, Hrt. simpl.
    unfold refresh_call, call_of in *. simpl in *.
    rewrite Hserve. simpl. by rewrite Hsettle.
Qed.

(** *** The retry is bounded *)

Lemma refresh_resolved_retry (c c' : Config) (w w1 : World) :
  refresh_access_token c w = (Resolved c', w1) → cfg_retry c' = cfg_retry c.
Proof.
  unfold refresh_access_token, mbind, M_bind, bind, getItem, axios_post.
  destruct (truthy_str (localStorage w !! "refreshToken")); simpl; [|done].
  rewrite dispatchRequest_eq.
  destruct (settle _ _) as [r| |]; [|done|done].
  destruct (get_prop (res_data r) "access"); [|done].
  by intros [= <- _].
Qed.

Lemma refresh_trace (c : Config) (w : World) :
  ∃ calls, trace (refresh_access_token c w).2 = trace w ++ calls
           ∧ (length calls ≤ 1)%nat.
Proof.
  unfold refresh_access_token, mbind, M_bind, bind, getItem, axios_post.
  destruct (truthy_str (localStorage w !! "refreshToken")); simpl.
  - rewrite dispatchRequest_eq.
    eexists [_]. split; [|simpl; lia].
    destruct (settle _ _) as [r| |]; [|done|done].
    by destruct (get_prop (res_data r) "access").
  - exists []. rewrite app_nil_r. split; [done|simpl; lia].
Qed.

Lemma api_call_not_refresh (c : Config) (w : World) :
  is_refresh_call (call_of (sent_config c w)) = false.
Proof.
  unfold is_refresh_call, call_of. simpl. rewrite sent_config_baseURL.
  destruct (cfg_method (sent_config c w)); [done| |done|done].
  rewrite bool_decide_eq_false_2; [|done]. apply andb_false_r.
Qed.

Lemma api_call_not_refresh' (c : Config) (w : World) :
  ¬ is_refresh_call (call_of (sent_config c w)).
Proof. rewrite api_call_not_refresh. exact id. Qed.

(** A request that carries the [_retry] flag is a single HTTP call. *)
Lemma api_request_flagged (fuel : nat) (c : Config) (w : World) :
  cfg_retry c = true →
  api_request (S fuel) c w = dispatchRequest (sent_config c w) w.
Proof.
  intros Hflag. rewrite api_request_S, dispatchRequest_eq.
  destruct (settle _ _) as [r|e|] eqn:Hsettle; [done| |done].
  apply response_rejected_passes. right. exists (sent_config c w).
  split; [by eapply settle_rejected|]. by rewrite sent_config_retry.
Qed.

Lemma response_rejected_ext (f g : Config → M Response) (error : JsError) (w : World) :
  (∀ c w', f c w' = g c w') →
  response_rejected f error w = response_rejected g error w.
Proof.
  intros Hfg. unfold response_rejected.
  destruct (status_is_401 error); [|done].
  destruct (err_config error) as [c|]; [|done].
  destruct (negb (cfg_retry c)); [|done].
  unfold mbind, M_bind, bind.
  by destruct (try_catch _ _ w) as [[c'|e|] w1].
Qed.

(** The interceptor calls the instance for a retry only with a config that
    carries the [_retry] flag. *)
Lemma response_rejected_retry_flagged (retry : Config → M Response)
    (error : JsError) (w : World) :
  response_rejected retry error w =
    response_rejected (λ c, if cfg_retry c then retry c else unsettled) error w.
Proof.
  unfold response_rejected.
  destruct (status_is_401 error); [|done].
  destruct (err_config error) as [c|]; [|done].
  destruct (negb (cfg_retry c)); [|done].
  unfold mbind, M_bind, bind, try_catch.
  destruct (refresh_access_token (set_retry true c) w) as [[c'|e|] w1] eqn:Hr;
    [|done|done].
  by rewrite (refresh_resolved_retry _ _ _ _ Hr).
Qed.

Lemma response_rejected_run (retry : Config → M Response) (error : JsError)
    (w : World) :
  (∀ c w', cfg_retry c = true → retry c w' = dispatchRequest (sent_config c w') w') →
  (response_rejected retry error w).1 ≠ Unsettled
  ∧ ∃ calls, trace (response_rejected retry error w).2 = trace w ++ calls
             ∧ (length (filter is_refresh_call calls) ≤ 1)%nat
             ∧ (length calls ≤ 2)%nat.
Proof.
  intros Hretry. unfold response_rejected.
  destruct (status_is_401 error);
    [|split; [done|]; exists []; rewrite app_nil_r; simpl; repeat split; lia].
  destruct (err_config error) as [c|];
    [|split; [done|]; exists []; rewrite app_nil_r; simpl; repeat split; lia].
  destruct (negb (cfg_retry c));
    [|split; [done|]; exists []; rewrite app_nil_r; simpl; repeat split; lia].
  unfold mbind, M_bind, bind, try_catch.
  destruct (refresh_trace (set_retry true c) w) as (calls & Htrace & Hlen).
  pose proof (refresh_settles (set_retry true c) w) as Hsettles.
  destruct (refresh_access_token (set_retry true c) w) as [[c'|e|] w1] eqn:Hr;
    simpl in *; [| |done].
  - rewrite Hretry by (by rewrite (refresh_resolved_retry _ _ _ _ Hr)).
    rewrite dispatchRequest_eq. simpl. split; [apply settle_settles|].
    exists (calls ++ [call_of (sent_config c' w1)]).
    rewrite Htrace, <-(assoc_L (++)). split; [done|].
    rewrite filter_app, !length_app.
    rewrite (filter_cons_False _ _ []) by apply api_call_not_refresh'.
    pose proof (length_filter is_refresh_call calls). simpl. lia.
  - split; [done|]. exists calls. split; [done|].
    pose proof (length_filter is_refresh_call calls). lia.
Qed.

(** C2: the refresh-and-retry cycle runs at most once per request.
    Whatever the backend does, a request settles with two units of fuel (more
    fuel changes nothing), makes at most three HTTP calls and among them at
    most one call to the token-refresh endpoint.  The interceptor hands the
    retry only a config that carries the [_retry] flag, a flagged request is
    one HTTP call, and a 401 on a flagged request is rejected with its error
    with the state, the trace of calls included, untouched. *)
Theorem retry_cycle_runs_at_most_once (fuel : nat) (c : Config) (w : World) :
  api_request (S (S fuel)) c w = api c w
  ∧ (api c w).1 ≠ Unsettled
  ∧ (∃ calls, trace (api c w).2 = trace w ++ calls
              ∧ (length (filter is_refresh_call calls) ≤ 1)%nat
              ∧ (length calls ≤ 3)%nat)
  ∧ (cfg_retry c = true →
     trace (api c w).2 = trace w ++ [call_of (sent_config c w)])
  ∧ (∀ retry error w0,
       response_rejected retry error w0 =
         response_rejected (λ c', if cfg_retry c' then retry c' else unsettled)
           error w0)
  ∧ (∀ retry error c0 w0,
       err_config error = Some c0 → cfg_retry c0 = true →
       response_rejected retry error w0 = (Rejected error, w0)).
Proof.
  assert (∀ n c' w', (if cfg_retry c' then api_request (S n) c' else unsettled) w'
                     = (if cfg_retry c' then api_request 1 c' else unsettled) w')
    as Hsame.
  { intros n c' w'. destruct (cfg_retry c') eqn:Hf; [|done].
    by rewrite !api_request_flagged. }
  split; [|split; [|split; [|split; [|split]]]].
  - unfold api. rewrite !api_request_S.
    destruct (dispatchRequest (sent_config c w) w) as [[r|e|] w1]; [done| |done].
    rewrite (response_rejected_retry_flagged (api_request (S fuel))).
    rewrite (response_rejected_retry_flagged (api_request 1)).
    apply response_rejected_ext. intros c' w'. apply Hsame.
  - unfold api. rewrite api_request_S, dispatchRequest_eq.
    pose proof (settle_settles (sent_config c w)
                  (serve (server w) (call_of (sent_config c w))).1) as Hs.
    destruct (settle _ _) as [r|e|]; [done| |done].
    rewrite response_rejected_retry_flagged.
    apply response_rejected_run. intros c' w' Hf.
    by rewrite Hf, api_request_flagged.
  - unfold api. rewrite api_request_S, dispatchRequest_eq.
    destruct (settle _ _) as [r|e|].
    + exists [call_of (sent_config c w)]. split; [done|].
      rewrite (filter_cons_False _ _ []) by apply api_call_not_refresh'.
      simpl; lia.
    + rewrite response_rejected_retry_flagged.
      edestruct (response_rejected_run
                   (λ c', if cfg_retry c' then api_request 1 c' else unsettled) e)
        as (_ & calls & -> & Hcount & Hlen).
      { intros c' w' Hf. by rewrite Hf, api_request_flagged. }
      exists (call_of (sent_config c w) :: calls). simpl.
      rewrite <-(assoc_L (++)). split; [done|].
      rewrite filter_cons_False by apply api_call_not_refresh'.
      split; lia.
    + exists [call_of (sent_config c w)]. split; [done|].
      rewrite (filter_cons_False _ _ []) by apply api_call_not_refresh'.
      simpl; lia.
  - intros Hf. unfold api. rewrite api_request_flagged by done.
    by rewrite dispatchRequest_eq.
  - intros retry error w0. apply response_rejected_retry_flagged.
  - intros retry error c0 w0 Hc Hf. apply response_rejected_passes. eauto.
Qed.

(** *** Where the calls go *)

Lemma refresh_resolved_shape (c c' : Config) (w w1 : World) :
  refresh_access_token c w = (Resolved c', w1) →
  ∃ v, c' = set_header "Authorization" v c.
Proof.
  unfold refresh_access_token, mbind, M_bind, bind, getItem, axios_post.
  destruct (truthy_str (localStorage w !! "refreshToken")); simpl; [|done].
  rewrite dispatchRequest_eq.
  destruct (settle _ _) as [r| |]; [|done|done].
  destruct (get_prop (res_data r) "access"); [|done].
  intros [= <- _]. eauto.
Qed.

Lemma refresh_trace_shape (c : Config) (w : World) :
  trace (refresh_access_token c w).2 = trace w
  ∨ ∃ refreshToken,
      trace (refresh_access_token c w).2 = trace w ++ [refresh_call refreshToken].
Proof.
  unfold refresh_access_token, mbind, M_bind, bind, getItem, axios_post.
  destruct (truthy_str (localStorage w !! "refreshToken")); simpl; [|by left].
  right. exists (default "" (localStorage w !! "refreshToken")).
  rewrite dispatchRequest_eq.
  destruct (settle _ _) as [r| |]; [|done|done].
  by destruct (get_prop (res_data r) "access").
Qed.

Lemma request_call_sent (c : Config) (w : World) :
  request_call c (call_of (sent_config c w)).
Proof.
  unfold request_call, call_of. simpl.
  by rewrite sent_config_method, sent_config_baseURL, sent_config_url,
    sent_config_data.
Qed.

(** The calls of one request through the instance: first the request itself,
    then at most a refresh call and the request again. *)
Lemma api_calls (c : Config) (w : World) :
  ∃ calls, trace (api c w).2 = trace w ++ call_of (sent_config c w) :: calls
           ∧ Forall (λ k, request_call c k ∨ ∃ rt, k = refresh_call rt) calls.
Proof.
  unfold api. rewrite api_request_S, dispatchRequest_eq.
  destruct (settle _ _) as [r|e|] eqn:Hsettle; [by exists []| |by exists []].
  apply settle_rejected in Hsettle.
  unfold response_rejected. rewrite Hsettle.
  destruct (status_is_401 e); [|by exists []].
  rewrite sent_config_retry.
  destruct (negb (cfg_retry c)); [|by exists []].
  unfold mbind, M_bind, bind, try_catch.
  set (w1 := mkWorld _ _ _ _ _). set (c1 := set_retry true (sent_config c w)).
  destruct (refresh_trace_shape c1 w1) as [Htr|(rt & Htr)];
    destruct (refresh_access_token c1 w1) as [[c'|e'|] w2] eqn:Hr; simpl in Htr.
  - apply refresh_resolved_shape in Hr as (v & ->).
    rewrite api_request_S, dispatchRequest_eq.
    exists [call_of (sent_config (set_header "Authorization" v c1) w2)].
    split.
    + destruct (settle _ _) as [r'|e''|] eqn:Hs'; simpl;
        [by rewrite Htr, <-(assoc_L (++))| |by rewrite Htr, <-(assoc_L (++))].
      rewrite response_rejected_passes; [by simpl; rewrite Htr, <-(assoc_L (++))|].
      right. eexists. split; [by eapply settle_rejected|].
      by rewrite sent_config_retry.
    + constructor; [|done]. left.
      destruct (request_call_sent (set_header "Authorization" v c1) w2)
        as (Hm & Hb & Hu & Hd).
      unfold request_call. rewrite Hm, Hb, Hu, Hd. unfold c1. simpl.
      by rewrite sent_config_method, sent_config_baseURL, sent_config_url,
        sent_config_data.
  - exists []. rewrite force_logout_eq. simpl. by rewrite Htr.
  - exists []. simpl. by rewrite Htr.
  - apply refresh_resolved_shape in Hr as (v & ->).
    rewrite api_request_S, dispatchRequest_eq.
    exists [refresh_call rt; call_of (sent_config (set_header "Authorization" v c1) w2)].
    split.
    + destruct (settle _ _) as [r'|e''|] eqn:Hs'; simpl;
        [by rewrite Htr, <-!(assoc_L (++))| |by rewrite Htr, <-!(assoc_L (++))].
      rewrite response_rejected_passes; [by simpl; rewrite Htr, <-!(assoc_L (++))|].
      right. eexists. split; [by eapply settle_rejected|].
      by rewrite sent_config_retry.
    + constructor; [right; eauto|]. constructor; [|done]. left.
      destruct (request_call_sent (set_header "Authorization" v c1) w2)
        as (Hm & Hb & Hu & Hd).
      unfold request_call. rewrite Hm, Hb, Hu, Hd. unfold c1. simpl.
      by rewrite sent_config_method, sent_config_baseURL, sent_config_url,
        sent_config_data.
  - exists [refresh_call rt]. rewrite force_logout_eq. simpl.
    rewrite Htr, <-(assoc_L (++)). split; [done|].
    constructor; [right; eauto|done].
  - exists [refresh_call rt]. simpl. rewrite Htr, <-(assoc_L (++)). split; [done|].
    constructor; [right; eauto|done].
Qed.

(** With a refresh token in the storage, the [try] block posts it: whatever
    the backend answers, the refresh call is the one call the block makes. *)
Lemma refresh_posts (c : Config) (w : World) (refreshToken : string) :
  localStorage w !! "refreshToken" = Some refreshToken →
  refreshToken ≠ "" →
  trace (refresh_access_token c w).2 = trace w ++ [refresh_call refreshToken].
Proof.
  intros Hrt Hne.
  unfold refresh_access_token, mbind, M_bind, bind, getItem, axios_post.
  assert (truthy_str (localStorage w !! "refreshToken") = true) as ->
    by (apply truthy_str_Some; eauto).
  simpl. rewrite dispatchRequest_eq, Hrt. simpl.
  destruct (settle _ _) as [r| |]; [|done|done].
  by destruct (get_prop (res_data r) "access").
Qed.

(** A request answered 401, not yet retried, with a refresh token in the
    storage: the second call of the run is the refresh call. *)
Lemma unauthorized_posts_refresh (c : Config) (w : World) (body0 : JsVal)
    (s1 : ServerState) (refreshToken : string) :
  cfg_retry c = false →
  serve (server w) (call_of (sent_config c w)) = (NetResponse 401 body0, s1) →
  localStorage w !! "refreshToken" = Some refreshToken →
  refreshToken ≠ "" →
  ∃ rest, trace (api c w).2
            = trace w ++ call_of (sent_config c w) :: refresh_call refreshToken :: rest.
Proof.
  intros Hflag Hfirst Hrt Hne.
  unfold api. rewrite api_request_S, dispatchRequest_eq, Hfirst.
  cbn -[api_request sent_config refresh_access_token force_logout].
  rewrite sent_config_retry, Hflag.
  cbn -[api_request sent_config refresh_access_token force_logout].
  unfold mbind, M_bind, bind, try_catch.
  set (c1 := set_retry true (sent_config c w)).
  set (w1 := mkWorld _ _ _ _ _).
  pose proof (refresh_posts c1 w1 refreshToken Hrt Hne) as Htrace.
  destruct (refresh_access_token c1 w1) as [[c'|e|] w2] eqn:Hr; simpl in Htrace.
  - rewrite api_request_flagged
      by (by rewrite (refresh_resolved_retry _ _ _ _ Hr)).
    rewrite dispatchRequest_eq. simpl. eexists [_].
    by rewrite Htrace, <-!(assoc_L (++)).
  - rewrite force_logout_eq. simpl. exists [].
    by rewrite Htrace, <-(assoc_L (++)).
  - simpl. exists []. by rewrite Htrace, <-(assoc_L (++)).
Qed.

(** C8: with [REACT_APP_API_URL] unset, the base URL of the instance is
    [http://localhost:8001/api] and the refresh call is posted to
    [http://localhost:8000/api/token/refresh/].  A request answered 401 with
    a refresh token in the storage is sent under the base URL on port 8001
    and followed by the refresh call, a POST of the refresh token with no
    base URL to the absolute URL on port 8000; and every call of any request
    made through the instance either carries the base URL on port 8001 or
    is such a refresh call. *)
Theorem default_origins_differ :
  REACT_APP_API_URL = None →
  baseURL = "http://localhost:8001/api"
  ∧ refresh_url = "http://localhost:8000/api" +:+ "/token/refresh/"
  ∧ (∀ c w, cfg_baseURL c = None →
       ∃ calls, trace (api c w).2 = trace w ++ calls
         ∧ (∃ k rest, calls = k :: rest
              ∧ call_baseURL k = Some "http://localhost:8001/api"
              ∧ call_url k = cfg_url c)
         ∧ Forall (λ k,
             (call_baseURL k = Some "http://localhost:8001/api"
                ∧ call_url k = cfg_url c)
             ∨ (call_method k = POST ∧ call_baseURL k = None
                  ∧ call_url k = "http://localhost:8000/api/token/refresh/")) calls)
  ∧ String.prefix "http://localhost:8001" baseURL = true
  ∧ String.prefix "http://localhost:8000" refresh_url = true
  ∧ String.prefix "http://localhost:8001" refresh_url = false
  ∧ (∀ c w body0 s1 refreshToken,
       cfg_baseURL c = None →
       cfg_retry c = false →
       serve (server w) (call_of (sent_config c w)) = (NetResponse 401 body0, s1) →
       localStorage w !! "refreshToken" = Some refreshToken →
       refreshToken ≠ "" →
       ∃ request rest,
         trace (api c w).2
           = trace w ++ request
               :: mkCall POST None "http://localhost:8000/api/token/refresh/" ∅
                    (JObj [("refresh", JStr refreshToken)])
               :: rest
         ∧ call_baseURL request = Some "http://localhost:8001/api"
         ∧ call_url request = cfg_url c).
Proof.
  intros Henv.
  assert (baseURL = "http://localhost:8001/api") as Hbase
    by (unfold baseURL; by rewrite Henv).
  assert (refresh_url = "http://localhost:8000/api/token/refresh/") as Hrefresh
    by (unfold refresh_url; by rewrite Henv).
  split; [done|]. split; [done|]. split; [|split; [|split; [|split]]].
  - intros c w Hnobase. destruct (api_calls c w) as (calls & Htrace & Hall).
    exists (call_of (sent_config c w) :: calls). split; [done|].
    assert (call_baseURL (call_of (sent_config c w)) = Some "http://localhost:8001/api"
            ∧ call_url (call_of (sent_config c w)) = cfg_url c) as Hfirst.
    { destruct (request_call_sent c w) as (_ & Hb & Hu & _).
      by rewrite Hb, Hu, Hnobase, Hbase. }
    split; [by eexists _, _|].
    constructor; [by left|].
    eapply Forall_impl; [exact Hall|]. simpl.
    intros k [(_ & Hb & Hu & _)|(rt & ->)].
    + left. by rewrite Hb, Hu, Hnobase, Hbase.
    + right. unfold refresh_call. simpl. by rewrite Hrefresh.
  - by rewrite Hbase.
  - by rewrite Hrefresh.
  - by rewrite Hrefresh.
  - intros c w body0 s1 refreshToken Hnobase Hflag Hfirst Hrt Hne.
    destruct (unauthorized_posts_refresh c w body0 s1 refreshToken)
      as (rest & Htrace); [done..|].
    exists (call_of (sent_config c w)), rest.
    split; [by rewrite Htrace; unfold refresh_call; rewrite Hrefresh|].
    destruct (request_call_sent c w) as (_ & Hb & Hu & _).
    by rewrite Hb, Hu, Hnobase, Hbase.
Qed.

(** *** The wrappers *)

(** A request the backend answers with a 2xx status at once: one HTTP call,
    made with the method, URL and body of the request, and the response as
    the result. *)
Lemma api_success (c : Config) (w : World) (status : Z) (body : JsVal)
    (s' : ServerState) :
  serve (server w) (call_of (sent_config c w)) = (NetResponse status body, s') →
  valid_status status = true →
  api c w =
    (Resolved (mkResponse status body (sent_config c w)),
     mkWorld (localStorage w) (defaults_common w) (location_href w) s'
             (trace w ++ [call_of (sent_config c w)])).
Proof.
  intros Hserve Hvalid. unfold api.
  rewrite api_request_S, dispatchRequest_eq, Hserve. simpl. by rewrite Hvalid.
Qed.


End ClientFacts.

(** * Properties of the vendor-accounts page *)

Section VendorsFacts.

Import VendorsPage.
Context `{VendorsApi}.

Lemma nonempty_truthy (v : string) : v ≠ "" → negb (String.eqb v "") = true.
Proof. intros Hne. apply negb_true_iff. by apply String.eqb_neq. Qed.

Lemma first_rejection_Some (order : list nat) (outs : list (Settled JsVal))
    (err : JsVal) :
  first_rejection order outs = Some err → Thrown err ∈ outs.
Proof.
  induction order as [|i rest IH]; simpl; [done|].
  destruct (outs !! i) as [[v|e]|] eqn:Hi; [done| |done].
  intros [= ->]. by eapply list_elem_of_lookup_2.
Qed.

(** A rejection of the combined promise is the rejection of one of the three
    calls. *)
Lemma all_accounts_thrown (order : list nat) (b : Backend) (err : JsVal) :
  (all_accounts order b).1 = Thrown err →
  (∃ b0, (cielo_listAccounts b0).1 = Thrown err)
  ∨ (∃ b0, (nest_listAccounts b0).1 = Thrown err)
  ∨ (∃ b0, (nethome_listAccounts b0).1 = Thrown err).
Proof.
  unfold all_accounts.
  destruct (cielo_listAccounts b) as [r1 b1] eqn:H1.
  destruct (nest_listAccounts b1) as [r2 b2] eqn:H2.
  destruct (nethome_listAccounts b2) as [r3 b3] eqn:H3.
  simpl. unfold promise_all.
  destruct (first_rejection _ _) as [e|] eqn:Hfirst; [|done].
  intros [= ->]. apply first_rejection_Some in Hfirst.
  apply elem_of_cons in Hfirst as [<-|Hfirst]; [left; exists b; by rewrite H1|].
  apply elem_of_cons in Hfirst as [<-|Hfirst]; [right; left; exists b1; by rewrite H2|].
  apply elem_of_cons in Hfirst as [<-|Hfirst]; [right; right; exists b2; by rewrite H3|].
  by apply elem_of_nil in Hfirst.
Qed.

Lemma first_rejection_app (o1 o2 : list nat) (outs : list (Settled JsVal)) :
  first_rejection (o1 ++ o2) outs =
    match first_rejection o1 outs with
    | Some err => Some err
    | None => first_rejection o2 outs
    end.
Proof.
  induction o1 as [|i rest IH]; simpl; [done|].
  by destruct (outs !! i) as [[v|e]|].
Qed.

(** Whatever the order of settlement, the combined promise rejects as soon
    as one of the three calls does. *)
Lemma promise_all_rejects (order : list nat) (r1 r2 r3 : Settled JsVal) :
  (∃ err, r1 = Thrown err ∨ r2 = Thrown err ∨ r3 = Thrown err) →
  ∃ err, promise_all order [r1; r2; r3] = Thrown err ∧ Thrown err ∈ [r1; r2; r3].
Proof.
  intros Hsome. unfold promise_all. rewrite first_rejection_app.
  destruct (first_rejection order [r1; r2; r3]) as [e|] eqn:Hfirst.
  - exists e. split; [done|]. by eapply first_rejection_Some.
  - destruct r1 as [v1|e1]; [|exists e1; split; [done|repeat constructor]].
    destruct r2 as [v2|e2]; [|exists e2; split; [done|repeat constructor]].
    destruct r3 as [v3|e3]; [|exists e3; split; [done|repeat constructor]].
    destruct Hsome as (err & [?|[?|?]]); done.
Qed.

Lemma shown_text (message : JsVal) (fallback : string) :
  fallback ≠ "" →
  (∃ text, message = JStr text) ∨ truthy message = false →
  ∃ text, text ≠ "" ∧ or_else message (JStr fallback) = JStr text.
Proof.
  intros Hne Hshape. unfold or_else.
  destruct (truthy message) eqn:Htruthy; [|by exists fallback].
  destruct Hshape as [(text & ->)|Hfalse]; [|done].
  exists text. split; [|done]. intros ->. by simpl in Htruthy.
Qed.

Lemma render_text (user : option string) (s : State) (text : string) :
  access_denied user = false →
  error s = JStr text →
  text ≠ "" →
  render user s = VendorAccounts (loading s) (Box (Text text)).
Proof.
  intros Hgate Herr Hne. unfold render. rewrite Hgate, Herr. simpl.
  by rewrite (proj2 (String.eqb_neq text "") Hne).
Qed.


End VendorsFacts.

(** * Further properties of the client *)

Section ClientEffects.

Context `{Environment}.

Lemma dispatchRequest_browser (c : Config) (w : World) :
  same_browser w (dispatchRequest c w).2.
Proof. by rewrite dispatchRequest_eq. Qed.

Lemma settle_resolved (c : Config) (r : NetResult) (response : Response) :
  settle c r = Resolved response →
  valid_status (res_status response) = true ∧ res_config response = c.
Proof.
  destruct r as [s d|msg]; simpl; [|done].
  destruct (valid_status s) eqn:Hv; [|done].
  by intros [= <-].
Qed.

(** What a successful run of the [try] block leaves behind. *)
Lemma refresh_resolved_state (c c' : Config) (w w1 : World) :
  refresh_access_token c w = (Resolved c', w1) →
  ∃ access,
    c' = set_header "Authorization" ("Bearer " +:+ access) c
    ∧ localStorage w1 = <["token" := access]> (localStorage w)
    ∧ defaults_common w1
        = <["Authorization" := "Bearer " +:+ access]> (defaults_common w)
    ∧ location_href w1 = location_href w.
Proof.
  unfold refresh_access_token, mbind, M_bind, bind, getItem, axios_post.
  destruct (truthy_str (localStorage w !! "refreshToken")); simpl; [|done].
  rewrite dispatchRequest_eq.
  destruct (settle _ _) as [r| |]; [|done|done].
  destruct (get_prop (res_data r) "access") as [access|]; [|done].
  intros [= <- <-]. by exists (to_string access).
Qed.

(** The browser state after the response interceptor has handled an error,
    when the retry is a single dispatch. *)
Lemma response_rejected_effects (error : JsError) (w : World) :
  let run := response_rejected (api_request 1) error w in
  (same_browser w run.2 ∨ refreshed w run.2 ∨ logged_out w run.2)
  ∧ (∀ r, run.1 = Resolved r → refreshed w run.2).
Proof.
  unfold response_rejected.
  destruct (status_is_401 error); [|by split; [left|]].
  destruct (err_config error) as [c|]; [|by split; [left|]].
  destruct (negb (cfg_retry c)); [|by split; [left|]].
  unfold mbind, M_bind, bind, try_catch.
  destruct (refresh_access_token (set_retry true c) w) as [[c'|e|] w1] eqn:Hr.
  - pose proof (refresh_resolved_retry _ _ _ _ Hr) as Hflag.
    apply refresh_resolved_state in Hr as (access & -> & Hst & Hdef & Hloc).
    rewrite api_request_flagged by done. rewrite dispatchRequest_eq. simpl.
    assert (refreshed w
              (mkWorld (localStorage w1) (defaults_common w1) (location_href w1)
                 (serve (server w1)
                    (call_of (sent_config
                       (set_header "Authorization" ("Bearer " +:+ access)
                          (set_retry true c)) w1))).2
                 (trace w1 ++
                    [call_of (sent_config
                       (set_header "Authorization" ("Bearer " +:+ access)
                          (set_retry true c)) w1)]))) as Href
      by (by exists access).
    split; [by right; left | done].
  - rewrite force_logout_eq. simpl.
    destruct (refresh_failure_frame _ _ _ _ Hr) as (Hst & Hdef & _).
    split; [|done]. right. right. unfold logged_out. simpl. by rewrite Hst, Hdef.
  - pose proof (refresh_settles (set_retry true c) w) as Hs. by rewrite Hr in Hs.
Qed.

Lemma api_effects (c : Config) (w : World) :
  (same_browser w (api c w).2 ∨ refreshed w (api c w).2 ∨ logged_out w (api c w).2)
  ∧ (∀ r, (api c w).1 = Resolved r →
       same_browser w (api c w).2 ∨ refreshed w (api c w).2).
Proof.
  unfold api. rewrite api_request_S, dispatchRequest_eq.
  destruct (settle _ _) as [r|e|]; [by split; [left|left]| |by split; [left|left]].
  set (w1 := mkWorld _ _ _ _ _).
  destruct (response_rejected_effects e w1) as (Hcases & Hres).
  split; [exact Hcases|]. intros r Hr. right. by eapply Hres.
Qed.

(** X1: whatever the backend does, a request through the instance leaves the
    browser state in one of three shapes: untouched; refreshed (a new access
    token stored and set as default header, nothing else); or logged out
    (both tokens and the default header removed, location [/login]).  A
    request that resolves has not logged out by its own doing. *)
Theorem request_browser_effects (c : Config) (w : World) :
  (same_browser w (api c w).2 ∨ refreshed w (api c w).2 ∨ logged_out w (api c w).2)
  ∧ (∀ r, (api c w).1 = Resolved r →
       same_browser w (api c w).2 ∨ refreshed w (api c w).2)
  ∧ (localStorage (api c w).2 !! "refreshToken" = localStorage w !! "refreshToken"
     ∨ localStorage (api c w).2 !! "refreshToken" = None)
  ∧ (location_href (api c w).2 = location_href w
     ∨ location_href (api c w).2 = "/login").
Proof.
  destruct (api_effects c w) as (Hcases & Hres).
  split; [exact Hcases|]. split; [exact Hres|].
  destruct Hcases as [(Hst & _ & Hloc)|[(a & Hst & _ & Hloc)|(Hst & _ & Hloc)]];
    rewrite Hst, Hloc.
  - by split; left.
  - rewrite lookup_insert_ne by done. by split; left.
  - rewrite lookup_delete_eq. by split; right.
Qed.

(** X2: requests keep the stored token and the default Authorization header
    in step: if, before a request, the default header (when present) is the
    bearer header of the stored token, the same holds after it. *)
Theorem request_keeps_token_header_consistent (c : Config) (w : World) :
  token_header_consistent w → token_header_consistent (api c w).2.
Proof.
  intros Hinv. unfold token_header_consistent.
  destruct (api_effects c w) as
    ([(Hst & Hdef & _)|[(a & Hst & Hdef & _)|(Hst & Hdef & _)]] & _);
    rewrite Hst, Hdef.
  - exact Hinv.
  - intros v. rewrite lookup_insert_eq. intros [= <-].
    exists a. by rewrite lookup_insert_eq.
  - intros v. by rewrite lookup_delete_eq.
Qed.

End ClientEffects.

Section ClientCycle.

Context `{Environment}.

Local Arguments api_request : simpl never.

Lemma sent_config_set_header (c : Config) (w : World) (v : string) :
  cfg_method (sent_config (set_header "Authorization" v (set_retry true c)) w)
    = cfg_method c
  ∧ cfg_url (sent_config (set_header "Authorization" v (set_retry true c)) w)
      = cfg_url c
  ∧ cfg_data (sent_config (set_header "Authorization" v (set_retry true c)) w)
      = cfg_data c.
Proof. by rewrite sent_config_method, sent_config_url, sent_config_data. Qed.

Lemma sent_config_set_header_call (c : Config) (w w' : World) (v : string) :
  cfg_method (sent_config (set_header "Authorization" v
                             (set_retry true (sent_config c w))) w') = cfg_method c
  ∧ cfg_url (sent_config (set_header "Authorization" v
                            (set_retry true (sent_config c w))) w') = cfg_url c
  ∧ cfg_data (sent_config (set_header "Authorization" v
                             (set_retry true (sent_config c w))) w') = cfg_data c.
Proof.
  rewrite !sent_config_method, !sent_config_url, !sent_config_data. simpl.
  by rewrite sent_config_method, sent_config_url, sent_config_data.
Qed.

(** X3: a request through the instance resolves only with a response whose
    status is in 2xx, and that response answers this request: its config
    has the method, URL and body the caller gave.  A 401 or any other status
    never comes back as a value. *)
Theorem resolved_response_is_success (c : Config) (w : World) (r : Response) :
  (api c w).1 = Resolved r →
  (200 ≤ res_status r < 300)
  ∧ cfg_method (res_config r) = cfg_method c
  ∧ cfg_url (res_config r) = cfg_url c
  ∧ cfg_data (res_config r) = cfg_data c.
Proof.
  assert (∀ c0 nr, settle c0 nr = Resolved r →
            (200 ≤ res_status r < 300) ∧ res_config r = c0) as Hok.
  { intros c0 nr Hs. apply settle_resolved in Hs as (Hv & Hc). split; [|done].
    unfold valid_status in Hv. apply andb_true_iff in Hv as (H1 & H2).
    apply Z.leb_le in H1. apply Z.ltb_lt in H2. lia. }
  unfold api. rewrite api_request_S, dispatchRequest_eq.
  destruct (settle _ _) as [r0|e|] eqn:Hsettle; [| |done].
  - simpl. intros [= ->]. apply Hok in Hsettle as (Hst & ->).
    by rewrite sent_config_method, sent_config_url, sent_config_data.
  - apply settle_rejected in Hsettle.
    unfold response_rejected. rewrite Hsettle.
    destruct (status_is_401 e); [|done].
    destruct (negb (cfg_retry (sent_config c w))); [|done].
    unfold mbind, M_bind, bind, try_catch.
    set (w1 := mkWorld _ _ _ _ _).
    destruct (refresh_access_token _ w1) as [[c'|e'|] w2] eqn:Hr; [| |done].
    + pose proof (refresh_resolved_retry _ _ _ _ Hr) as Hflag.
      apply refresh_resolved_shape in Hr as (v & ->).
      rewrite api_request_flagged by done. rewrite dispatchRequest_eq. simpl.
      intros Hres. apply Hok in Hres as (Hst & ->).
      split; [done|].
      destruct (sent_config_set_header (sent_config c w) w2 v) as (-> & -> & ->).
      by rewrite sent_config_method, sent_config_url, sent_config_data.
    + by rewrite force_logout_eq.
Qed.

(** The refresh-and-retry cycle through the instance, step by step: the
    request is answered 401, the refresh is answered with an access token,
    and what is left is the dispatch of the retry. *)
Lemma api_refresh_cycle (c : Config) (w : World) (body0 : JsVal)
    (s1 s2 : ServerState) (refreshToken : string) (status : Z)
    (data access : JsVal) :
  cfg_retry c = false →
  serve (server w) (call_of (sent_config c w)) = (NetResponse 401 body0, s1) →
  localStorage w !! "refreshToken" = Some refreshToken →
  refreshToken ≠ "" →
  serve s1 (refresh_call refreshToken) = (NetResponse status data, s2) →
  valid_status status = true →
  get_prop data "access" = Some access →
  let w2 := mkWorld (<["token" := to_string access]> (localStorage w))
              (<["Authorization" := "Bearer " +:+ to_string access]> (defaults_common w))
              (location_href w) s2
              (trace w ++ [call_of (sent_config c w); refresh_call refreshToken]) in
  api c w =
    dispatchRequest
      (sent_config (set_header "Authorization" ("Bearer " +:+ to_string access)
                      (set_retry true (sent_config c w))) w2) w2.
Proof.
  intros Hflag Hfirst Hrt Hne Hrefresh Hvalid Hacc w2.
  unfold api. rewrite api_request_S, dispatchRequest_eq, Hfirst. simpl.
  unfold response_rejected. simpl. rewrite sent_config_retry, Hflag. simpl.
  unfold mbind, M_bind, bind, try_catch.
  rewrite (refresh_access_token_ok _ _ refreshToken status data access s2);
    [|done..].
  simpl. rewrite <-(assoc_L (++)). simpl. fold w2.
  by rewrite api_request_flagged.
Qed.

Lemma retry_header (c : Config) (w : World) (access : string) :
  cfg_headers c !! "Authorization" = Some ("Bearer " +:+ access) →
  localStorage w !! "token" = Some access →
  cfg_headers (sent_config c w) !! "Authorization" = Some ("Bearer " +:+ access).
Proof.
  intros Hhdr Htok. unfold sent_config. rewrite Htok. simpl.
  destruct (negb (String.eqb access "")); simpl.
  - by rewrite lookup_insert_eq.
  - apply lookup_union_Some_l. by apply lookup_union_Some_l.
Qed.

(** X4: the retry is sent with the new token.  After a 401 and a successful
    refresh the request goes out a third time with the same method, URL and
    body and with [Authorization: Bearer <access>], whatever Authorization
    header the first attempt carried; the three calls are the request, the
    refresh and the retry, in this order. *)
Theorem retry_carries_new_token (c : Config) (w : World) (body0 : JsVal)
    (s1 s2 : ServerState) (refreshToken : string) (status : Z)
    (data access : JsVal) :
  cfg_retry c = false →
  serve (server w) (call_of (sent_config c w)) = (NetResponse 401 body0, s1) →
  localStorage w !! "refreshToken" = Some refreshToken →
  refreshToken ≠ "" →
  serve s1 (refresh_call refreshToken) = (NetResponse status data, s2) →
  valid_status status = true →
  get_prop data "access" = Some access →
  ∃ k, trace (api c w).2
         = trace w ++ [call_of (sent_config c w); refresh_call refreshToken; k]
       ∧ call_headers k !! "Authorization" = Some ("Bearer " +:+ to_string access)
       ∧ call_method k = cfg_method c
       ∧ call_url k = cfg_url c
       ∧ call_data k = cfg_data c.
Proof.
  intros Hflag Hfirst Hrt Hne Hrefresh Hvalid Hacc.
  rewrite (api_refresh_cycle c w body0 s1 s2 refreshToken status data access)
    by done.
  rewrite dispatchRequest_eq. simpl. eexists. split.
  - by rewrite <-(assoc_L (++)).
  - unfold call_of. simpl. split.
    + apply retry_header; simpl; by rewrite lookup_insert_eq.
    + apply sent_config_set_header_call.
Qed.

(** X5: a retry that fails does not log the user out.  Once the refresh has
    succeeded, however the retry ends, the new access token stays in the
    storage and in the default header, the refresh token stays, and the
    location is not changed; when the retry is rejected, the caller gets the
    error of the retry itself (its config carries [_retry]). *)
Theorem failed_retry_keeps_session (c : Config) (w : World) (body0 : JsVal)
    (s1 s2 : ServerState) (refreshToken : string) (status : Z)
    (data access : JsVal) :
  cfg_retry c = false →
  serve (server w) (call_of (sent_config c w)) = (NetResponse 401 body0, s1) →
  localStorage w !! "refreshToken" = Some refreshToken →
  refreshToken ≠ "" →
  serve s1 (refresh_call refreshToken) = (NetResponse status data, s2) →
  valid_status status = true →
  get_prop data "access" = Some access →
  localStorage (api c w).2 = <["token" := to_string access]> (localStorage w)
  ∧ localStorage (api c w).2 !! "refreshToken" = Some refreshToken
  ∧ defaults_common (api c w).2 !! "Authorization"
      = Some ("Bearer " +:+ to_string access)
  ∧ location_href (api c w).2 = location_href w
  ∧ (∀ e, (api c w).1 = Rejected e →
       ∃ c', err_config e = Some c' ∧ cfg_retry c' = true
             ∧ cfg_url c' = cfg_url c).
Proof.
  intros Hflag Hfirst Hrt Hne Hrefresh Hvalid Hacc.
  rewrite (api_refresh_cycle c w body0 s1 s2 refreshToken status data access)
    by done.
  rewrite dispatchRequest_eq. simpl.
  split; [done|]. split; [by rewrite lookup_insert_ne|].
  split; [by rewrite lookup_insert_eq|]. split; [done|].
  intros e He. apply settle_rejected in He. eexists. split; [exact He|].
  rewrite sent_config_retry. split; [done|].
  by destruct (sent_config_set_header_call c w
    (mkWorld (<["token" := to_string access]> (localStorage w))
       (<["Authorization" := "Bearer " +:+ to_string access]> (defaults_common w))
       (location_href w) s2
       (trace w ++ [call_of (sent_config c w); refresh_call refreshToken]))
    ("Bearer " +:+ to_string access)) as (_ & -> & _).
Qed.

(** X6: a 401 with no refresh token in the storage costs one HTTP call.  The
    request is not followed by a refresh call; the caller gets the error
    [No refresh token available], not the 401, and the browser is logged
    out. *)
Theorem unauthorized_without_refresh_token (c : Config) (w : World)
    (body0 : JsVal) (s1 : ServerState) :
  cfg_retry c = false →
  serve (server w) (call_of (sent_config c w)) = (NetResponse 401 body0, s1) →
  localStorage w !! "refreshToken" = None
    ∨ localStorage w !! "refreshToken" = Some "" →
  api c w =
    (Rejected (Error "No refresh token available"),
     mkWorld (delete "refreshToken" (delete "token" (localStorage w)))
             (delete "Authorization" (defaults_common w)) "/login" s1
             (trace w ++ [call_of (sent_config c w)])).
Proof.
  intros Hflag Hfirst Hno. apply truthy_str_false in Hno.
  unfold api. rewrite api_request_S, dispatchRequest_eq, Hfirst. simpl.
  unfold response_rejected. simpl. rewrite sent_config_retry, Hflag. simpl.
  unfold mbind, M_bind, bind, try_catch.
  unfold refresh_access_token, mbind, M_bind, bind, getItem. simpl.
  by rewrite Hno.
Qed.

(** X7: after a forced logout the next request is sent unauthenticated.  In
    the state the [catch] block leaves, a request whose caller sets no
    Authorization header goes out without one: neither a stored token nor a
    default header is left to supply it. *)
Theorem request_after_logout_is_anonymous (retry : Config → M Response)
    (error refreshError : JsError) (originalRequest : Config) (w w1 : World)
    (c : Config) :
  status_is_401 error = true →
  err_config error = Some originalRequest →
  cfg_retry originalRequest = false →
  refresh_access_token (set_retry true originalRequest) w = (Rejected refreshError, w1) →
  cfg_headers c !! "Authorization" = None →
  let w' := (response_rejected retry error w).2 in
  ∃ calls, trace (api c w').2 = trace w' ++ call_of (sent_config c w') :: calls
           ∧ call_headers (call_of (sent_config c w')) !! "Authorization" = None.
Proof.
  intros H401 Hcfg Hflag Hfail Hnone w'.
  destruct (api_calls c w') as (calls & Htrace & _).
  exists calls. split; [exact Htrace|].
  unfold w'.
  rewrite (response_rejected_refresh_fails retry error refreshError
             originalRequest w w1) by done.
  unfold call_of, sent_config. simpl.
  rewrite lookup_delete_ne by done. rewrite lookup_delete_eq. simpl.
  rewrite !lookup_union_None. rewrite lookup_delete_eq. by repeat split.
Qed.

(** X8: the request interceptor is idempotent.  Running it on its own
    result, as happens when a request is retried, changes nothing. *)
Theorem request_interceptor_idempotent (config config' : Config) (w w' : World) :
  request_fulfilled config w = (Resolved config', w') →
  request_fulfilled config' w' = (Resolved config', w').
Proof.
  rewrite !request_fulfilled_eq. intros [= <- <-].
  destruct (truthy_str (localStorage w !! "token")); [|done].
  unfold set_header. simpl. by rewrite insert_insert_eq.
Qed.

(** X9: with [REACT_APP_API_URL] set to a non-empty URL, requests and the
    token refresh go to the same place: the base URL of the instance is that
    URL and the refresh call is posted to that URL followed by
    [/token/refresh/].  A request answered 401 with a refresh token in the
    storage is sent under that base URL and followed by the refresh call to
    that URL; every call of any request carries the one or is the other.  Set
    to the empty string, the variable counts as unset. *)
Theorem configured_url_is_shared (u : string) :
  REACT_APP_API_URL = Some u →
  (u ≠ "" →
     baseURL = u
     ∧ refresh_url = u +:+ "/token/refresh/"
     ∧ (∀ c w, cfg_baseURL c = None →
         ∃ calls, trace (api c w).2 = trace w ++ calls
           ∧ Forall (λ k, call_baseURL k = Some u
                          ∨ (call_baseURL k = None
                             ∧ call_url k = u +:+ "/token/refresh/")) calls)
     ∧ (∀ c w body0 s1 refreshToken,
          cfg_baseURL c = None →
          cfg_retry c = false →
          serve (server w) (call_of (sent_config c w)) = (NetResponse 401 body0, s1) →
          localStorage w !! "refreshToken" = Some refreshToken →
          refreshToken ≠ "" →
          ∃ request rest,
            trace (api c w).2
              = trace w ++ request
                  :: mkCall POST None (u +:+ "/token/refresh/") ∅
                       (JObj [("refresh", JStr refreshToken)])
                  :: rest
            ∧ call_baseURL request = Some u
            ∧ call_url request = cfg_url c))
  ∧ (u = "" →
     baseURL = "http://localhost:8001/api"
     ∧ refresh_url = "http://localhost:8000/api/token/refresh/").
Proof.
  intros Henv. split.
  - intros Hne.
    assert (baseURL = u) as Hbase.
    { unfold baseURL, env_or. rewrite Henv. simpl.
      by rewrite (proj2 (String.eqb_neq u "") Hne). }
    assert (refresh_url = u +:+ "/token/refresh/") as Hrefresh.
    { unfold refresh_url, env_or. rewrite Henv. simpl.
      by rewrite (proj2 (String.eqb_neq u "") Hne). }
    split; [done|]. split; [done|]. split.
    + intros c w Hnobase. destruct (api_calls c w) as (calls & Htrace & Hall).
      exists (call_of (sent_config c w) :: calls). split; [done|].
      constructor.
      * left. destruct (request_call_sent c w) as (_ & -> & _).
        by rewrite Hnobase, <-Hbase.
      * eapply Forall_impl; [exact Hall|]. simpl.
        intros k [(_ & -> & _)|(rt & ->)].
        -- left. by rewrite Hnobase, <-Hbase.
        -- right. unfold refresh_call. simpl. by rewrite Hrefresh.
    + intros c w body0 s1 refreshToken Hnobase Hflag Hfirst Hrt Hrtne.
      destruct (unauthorized_posts_refresh c w body0 s1 refreshToken)
        as (rest & Htrace); [done..|].
      exists (call_of (sent_config c w)), rest.
      split; [by rewrite Htrace; unfold refresh_call; rewrite Hrefresh|].
      destruct (request_call_sent c w) as (_ & Hb & Hu & _).
      by rewrite Hb, Hu, Hnobase, Hbase.
  - intros ->. unfold baseURL, refresh_url, env_or. by rewrite Henv.
Qed.

End ClientCycle.

(** * Further properties of the vendor-accounts page *)

Section VendorsMore.

Import VendorsPage.
Context `{VendorsApi}.

Lemma or_else_fallback_truthy (message : JsVal) (fallback : string) :
  fallback ≠ "" → truthy (or_else message (JStr fallback)) = true.
Proof.
  intros Hne. unfold or_else. destruct (truthy message) eqn:Hm; [done|].
  simpl. apply negb_true_iff. by apply String.eqb_neq.
Qed.

(** X10: the required-field checks.  A create handler whose required field
    is empty (the API key for Cielo and NetHome; the access token, the
    refresh token or the expiry for Nest) only sets the matching message:
    no call reaches the backend and nothing else of the page changes. *)
Theorem create_requires_fields (s : State) (b : Backend) :
  (cieloApiKey (cielo s) = "" →
   handleCieloCreate (s, b) =
     (Fulfilled (), (with_error s (JStr "Cielo API key is required") (loading s), b)))
  ∧ (nestAccessToken (nest s) = "" ∨ nestRefreshToken (nest s) = ""
       ∨ nestExpiresAt (nest s) = "" →
     handleNestCreate (s, b) =
       (Fulfilled (),
        (with_error s
           (JStr "Nest access token, refresh token and expires_at are required")
           (loading s), b)))
  ∧ (nethomeApiKey (nethome s) = "" →
     handleNetHomeCreate (s, b) =
       (Fulfilled (), (with_error s (JStr "NetHome API key is required") (loading s), b))).
Proof.
  split; [|split].
  - intros Hempty. unfold handleCieloCreate, mbind, P_bind, get_state. simpl.
    by rewrite Hempty.
  - intros Hempty. unfold handleNestCreate, mbind, P_bind, get_state. simpl.
    destruct Hempty as [ -> | [ -> | -> ] ]; simpl.
    + done.
    + by rewrite orb_true_r.
    + by rewrite orb_true_r.
  - intros Hempty. unfold handleNetHomeCreate, mbind, P_bind, get_state. simpl.
    by rewrite Hempty.
Qed.

(** X11: a successful creation.  When the create call and the reload of the
    list both succeed, the handler clears the fields of its form, clears the
    error and replaces the list of its vendor by the reloaded one; the other
    vendors' lists and forms and the loading flag stay as they are. *)
Theorem create_success (s : State) (b b1 b2 : Backend) (created listed : JsVal) :
  (cieloApiKey (cielo s) ≠ "" →
   cielo_createAccount (cielo_payload s) b = (Fulfilled created, b1) →
   cielo_listAccounts b1 = (Fulfilled listed, b2) →
   handleCieloCreate (s, b) =
     (Fulfilled (),
      (mkState (mkAccounts listed (nestAccounts (accounts s))
                  (nethomeAccounts (accounts s)))
         (mkCieloForm "" "" "") (nest s) (nethome s) JNull (loading s), b2)))
  ∧ (nestAccessToken (nest s) ≠ "" → nestRefreshToken (nest s) ≠ "" →
     nestExpiresAt (nest s) ≠ "" →
     nest_createAccount (nest_payload s) b = (Fulfilled created, b1) →
     nest_listAccounts b1 = (Fulfilled listed, b2) →
     handleNestCreate (s, b) =
       (Fulfilled (),
        (mkState (mkAccounts (cieloAccounts (accounts s)) listed
                    (nethomeAccounts (accounts s)))
           (cielo s) (mkNestForm "" "" "" "" "") (nethome s) JNull (loading s), b2)))
  ∧ (nethomeApiKey (nethome s) ≠ "" →
     nethome_createAccount (nethome_payload s) b = (Fulfilled created, b1) →
     nethome_listAccounts b1 = (Fulfilled listed, b2) →
     handleNetHomeCreate (s, b) =
       (Fulfilled (),
        (mkState (mkAccounts (cieloAccounts (accounts s))
                    (nestAccounts (accounts s)) listed)
           (cielo s) (nest s) (mkNetHomeForm "" "" "") JNull (loading s), b2))).
Proof.
  split; [|split].
  - intros Hkey Hcreate Hlist.
    unfold handleCieloCreate, try_catch, mbind, P_bind, get_state, await. simpl.
    rewrite (nonempty_truthy _ Hkey). simpl.
    fold (cielo_payload s). rewrite Hcreate. simpl.
    unfold refreshCielo, mbind, P_bind, await. simpl. by rewrite Hlist.
  - intros Ha Hr He Hcreate Hlist.
    unfold handleNestCreate, try_catch, mbind, P_bind, get_state, await. simpl.
    rewrite (nonempty_truthy _ Ha), (nonempty_truthy _ Hr), (nonempty_truthy _ He).
    simpl. fold (nest_payload s). rewrite Hcreate. simpl.
    unfold refreshNest, mbind, P_bind, await. simpl. by rewrite Hlist.
  - intros Hkey Hcreate Hlist.
    unfold handleNetHomeCreate, try_catch, mbind, P_bind, get_state, await. simpl.
    rewrite (nonempty_truthy _ Hkey). simpl.
    fold (nethome_payload s). rewrite Hcreate. simpl.
    unfold refreshNetHome, mbind, P_bind, await. simpl. by rewrite Hlist.
Qed.

(** X12: loading succeeds.  When the three listings succeed, in whatever
    order they settle, the three lists are replaced by the results in the
    order Cielo, Nest, NetHome, the error is cleared and the loading flag is
    reset; the forms are untouched. *)
Theorem fetch_success (order : list nat) (s : State) (b b1 b2 b3 : Backend)
    (cieloList nestList nethomeList : JsVal) :
  cielo_listAccounts b = (Fulfilled cieloList, b1) →
  nest_listAccounts b1 = (Fulfilled nestList, b2) →
  nethome_listAccounts b2 = (Fulfilled nethomeList, b3) →
  fetchAccounts order (s, b) =
    (Fulfilled (),
     (mkState (mkAccounts cieloList nestList nethomeList)
        (cielo s) (nest s) (nethome s) JNull false, b3)).
Proof.
  intros H1 H2 H3.
  assert (all_accounts order b = (Fulfilled [cieloList; nestList; nethomeList], b3))
    as Hall.
  { unfold all_accounts. rewrite H1, H2, H3. f_equal.
    unfold promise_all. rewrite first_rejection_app.
    assert (∀ o, first_rejection o
                   [Fulfilled cieloList; Fulfilled nestList; Fulfilled nethomeList]
                 = None) as Hnone.
    { induction o as [|i rest IH]; simpl; [done|].
      destruct i as [|[|[|i]]]; simpl; done. }
    by rewrite !Hnone. }
  unfold fetchAccounts, try_finally, try_catch, mbind, P_bind, await. simpl.
  by rewrite Hall.
Qed.

(** X13: one failed listing fails the whole load.  If at least one of the
    three listings rejects (each with a value whose message can be read),
    whatever the order of settlement: none of the three lists is replaced,
    also not those whose listing succeeded; the error cell gets the message
    of one of the rejections, or the fallback text when that message is
    missing or otherwise falsy, which is a truthy value; the loading flag is
    reset.  When that message is a string or falsy, the error cell holds a
    non-empty text and the page renders it in the error box. *)
Theorem fetch_partial_failure (order : list nat) (s : State)
    (b b1 b2 b3 : Backend) (r1 r2 r3 : Settled JsVal) :
  cielo_listAccounts b = (r1, b1) →
  nest_listAccounts b1 = (r2, b2) →
  nethome_listAccounts b2 = (r3, b3) →
  (∃ err, r1 = Thrown err ∨ r2 = Thrown err ∨ r3 = Thrown err) →
  (∀ err, Thrown err ∈ [r1; r2; r3] → get_prop err "message" ≠ None) →
  ∃ err message,
    Thrown err ∈ [r1; r2; r3]
    ∧ get_prop err "message" = Some message
    ∧ fetchAccounts order (s, b) =
        (Fulfilled (),
         (with_error s (or_else message (JStr "Failed to load vendor accounts")) false,
          b3))
    ∧ truthy (or_else message (JStr "Failed to load vendor accounts")) = true
    ∧ ((∃ text, message = JStr text) ∨ truthy message = false →
       ∃ text,
         text ≠ ""
         ∧ or_else message (JStr "Failed to load vendor accounts") = JStr text
         ∧ render (Some "admin") (with_error s (JStr text) false)
             = VendorAccounts false (Box (Text text))).
Proof.
  intros H1 H2 H3 Hsome Hreadable.
  destruct (promise_all_rejects order r1 r2 r3 Hsome) as (err & Hall & Hin).
  destruct (get_prop err "message") as [message|] eqn:Hmsg;
    [|by apply Hreadable in Hin].
  exists err, message. split; [done|]. split; [done|].
  split; [|split].
  - unfold fetchAccounts, try_finally, try_catch, mbind, P_bind, await. simpl.
    unfold all_accounts. rewrite H1, H2, H3, Hall. simpl.
    unfold report. by rewrite Hmsg.
  - by apply or_else_fallback_truthy.
  - intros Hshape.
    destruct (shown_text message "Failed to load vendor accounts") as (text & Hne & Heq);
      [done | done |].
    exists text. split; [done|]. split; [done|].
    by apply render_text.
Qed.

(** X14: the loading flag never stays on.  However the load ends, also when
    the [catch] clause itself throws because the message of the thrown value
    cannot be read, the [finally] clause has reset the flag. *)
Theorem fetch_resets_loading (order : list nat) (s : State) (b : Backend) :
  loading (fetchAccounts order (s, b)).2.1 = false.
Proof.
  unfold fetchAccounts, try_finally, try_catch, mbind, P_bind, await. simpl.
  destruct (all_accounts order b) as [[results|err] b']; simpl; [done|].
  unfold report. by destruct (get_prop err "message").
Qed.


(** Case analysis over every way a handler can run: each call to the
    backend and each read of a message is split into its outcomes. *)
Ltac handler_cases :=
  repeat match goal with
         | |- context [match ?call ?b with _ => _ end] =>
             match type of (call b) with
             | (Settled _ * _)%type => destruct (call b) as [[?|?] ?]; simpl
             end
         | |- context [get_prop ?e "message"] =>
             destruct (get_prop e "message"); simpl
         | |- context [if ?c then _ else _] => destruct c; simpl
         end.

(** X16: each handler keeps to its own vendor.  However a create handler
    ends (rejected by the field check, failed, succeeded, or thrown out of
    its [catch]), the lists and the form fields of the other two vendors and
    the loading flag are as before; and loading the lists never changes what
    is typed into the three forms. *)
Theorem handlers_keep_to_their_vendor (order : list nat) (s : State) (b : Backend) :
  (let s' := (handleCieloCreate (s, b)).2.1 in
   nest s' = nest s ∧ nethome s' = nethome s
   ∧ nestAccounts (accounts s') = nestAccounts (accounts s)
   ∧ nethomeAccounts (accounts s') = nethomeAccounts (accounts s)
   ∧ loading s' = loading s)
  ∧ (let s' := (handleNestCreate (s, b)).2.1 in
     cielo s' = cielo s ∧ nethome s' = nethome s
     ∧ cieloAccounts (accounts s') = cieloAccounts (accounts s)
     ∧ nethomeAccounts (accounts s') = nethomeAccounts (accounts s)
     ∧ loading s' = loading s)
  ∧ (let s' := (handleNetHomeCreate (s, b)).2.1 in
     cielo s' = cielo s ∧ nest s' = nest s
     ∧ cieloAccounts (accounts s') = cieloAccounts (accounts s)
     ∧ nestAccounts (accounts s') = nestAccounts (accounts s)
     ∧ loading s' = loading s)
  ∧ (let s' := (fetchAccounts order (s, b)).2.1 in
     cielo s' = cielo s ∧ nest s' = nest s ∧ nethome s' = nethome s).
Proof.
  split; [|split; [|split]].
  - unfold handleCieloCreate, try_catch, mbind, P_bind, get_state, await,
      refreshCielo, report, mbind, P_bind, await. simpl.
    handler_cases; done.
  - unfold handleNestCreate, try_catch, mbind, P_bind, get_state, await,
      refreshNest, report, mbind, P_bind, await. simpl.
    handler_cases; done.
  - unfold handleNetHomeCreate, try_catch, mbind, P_bind, get_state, await,
      refreshNetHome, report, mbind, P_bind, await. simpl.
    handler_cases; done.
  - unfold fetchAccounts, try_finally, try_catch, mbind, P_bind, await, report.
    simpl. destruct (all_accounts order b) as [[results|err] b']; simpl; [done|].
    by destruct (get_prop err "message").
Qed.

End VendorsMore.

(** * Concrete runs *)

(** C1, run: the stored refresh token [r1] is posted, the backend answers with
    the access token [new], and the interceptor goes on with the retry in the
    updated state. *)
Lemma refresh_and_retry_witness :
  response_rejected (H := scripted) api (unauthorized thermostats_request)
    (scripted_world signed_in
       [NetResponse 200 (JObj [("access", JStr "new")]); NetResponse 200 (JStr "ok")])
  = api (H := scripted)
      (mkConfig GET "/thermostats/" (Some "http://localhost:8001/api")
         (<["Authorization" := "Bearer new"]> {[ "Authorization" := "Bearer old" ]})
         JUndefined true)
      (mkWorld (H := scripted) (<["token" := "new"]> signed_in) (<["Authorization" := "Bearer new"]> ∅)
         "/" [NetResponse 200 (JStr "ok")]
         [mkCall POST None "http://localhost:8000/api/token/refresh/" ∅
            (JObj [("refresh", JStr "r1")])]).
Proof.
  apply (refresh_and_retry (H := scripted) api (unauthorized thermostats_request)
           thermostats_request
           (scripted_world signed_in
              [NetResponse 200 (JObj [("access", JStr "new")]);
               NetResponse 200 (JStr "ok")])
           "r1" 200 (JObj [("access", JStr "new")]) (JStr "new")
           [NetResponse 200 (JStr "ok")]);
    [reflexivity | reflexivity | reflexivity | reflexivity | discriminate
    | reflexivity | reflexivity | reflexivity].
Defined.

(** The whole cycle through a wrapper: 401, refresh, retry. *)
Example getThermostats_refreshes :
  let run := getThermostats (H := scripted)
               (scripted_world signed_in
                  [NetResponse 401 JNull;
                   NetResponse 200 (JObj [("access", JStr "new")]);
                   NetResponse 200 (JStr "ok")]) in
  run.1 = Resolved (JStr "ok")
  ∧ localStorage run.2 !! "token" = Some "new"
  ∧ defaults_common run.2 !! "Authorization" = Some "Bearer new"
  ∧ call_url <$> trace run.2 =
      ["/thermostats/"; "http://localhost:8000/api/token/refresh/"; "/thermostats/"]
  ∧ (λ k, call_headers k !! "Authorization") <$> trace run.2 =
      [Some "Bearer old"; None; Some "Bearer new"].
Proof. vm_compute. done. Qed.

(** A second 401, on the retry, is handed to the caller: no second refresh,
    and the tokens stay. *)
Example getThermostats_second_401 :
  let run := getThermostats (H := scripted)
               (scripted_world signed_in
                  [NetResponse 401 JNull;
                   NetResponse 200 (JObj [("access", JStr "new")]);
                   NetResponse 401 JNull;
                   NetResponse 200 (JStr "never asked")]) in
  (∃ m r c, run.1 = Rejected (AxiosError m (Some r) c) ∧ res_status r = 401)
  ∧ localStorage run.2 !! "token" = Some "new"
  ∧ location_href run.2 = "/"
  ∧ length (trace run.2) = 3%nat.
Proof. vm_compute. split; [by eexists _, _, _|done]. Qed.

(** C2, run: a request that already carries [_retry] is one HTTP call. *)
Lemma retry_cycle_runs_at_most_once_witness :
  trace (api (H := scripted) (set_retry true thermostats_request)
           (scripted_world signed_in [NetResponse 401 JNull; NetResponse 200 JNull])).2
  = [] ++ [call_of (sent_config (H := scripted) (set_retry true thermostats_request)
                      (scripted_world signed_in
                         [NetResponse 401 JNull; NetResponse 200 JNull]))].
Proof.
  destruct (retry_cycle_runs_at_most_once (H := scripted) 0
              (set_retry true thermostats_request)
              (scripted_world signed_in [NetResponse 401 JNull; NetResponse 200 JNull]))
    as (_ & _ & _ & Hflagged & _).
  apply Hflagged. reflexivity.
Defined.

(** C3, run: a 401 with no refresh token in the storage. *)
Lemma refresh_failure_forces_logout_witness :
  response_rejected (H := scripted) api (unauthorized thermostats_request)
    (mkWorld (H := scripted) {[ "token" := "old" ]} {[ "Authorization" := "Bearer old" ]} "/admin"
       [NetResponse 200 JNull] [])
  = (Rejected (Error "No refresh token available"),
     mkWorld (H := scripted) (delete "refreshToken" (delete "token" {[ "token" := "old" ]}))
       (delete "Authorization" {[ "Authorization" := "Bearer old" ]}) "/login"
       [NetResponse 200 JNull] []).
Proof.
  destruct (refresh_failure_forces_logout (H := scripted) api
              (unauthorized thermostats_request) thermostats_request
              (mkWorld (H := scripted) {[ "token" := "old" ]}
                 {[ "Authorization" := "Bearer old" ]} "/admin"
                 [NetResponse 200 JNull] []))
    as (_ & Hnone & _); [reflexivity | reflexivity | reflexivity |].
  apply Hnone. left. reflexivity.
Defined.

(** The same through a wrapper, with a refresh call the backend refuses. *)
Example getThermostats_refresh_refused :
  let run := getThermostats (H := scripted)
               (scripted_world signed_in
                  [NetResponse 401 JNull; NetResponse 401 JNull;
                   NetResponse 200 (JStr "never asked")]) in
  (∃ m r c, run.1 = Rejected (AxiosError m (Some r) c)
            ∧ cfg_url (res_config r) = "http://localhost:8000/api/token/refresh/")
  ∧ localStorage run.2 = ∅
  ∧ defaults_common run.2 !! "Authorization" = None
  ∧ location_href run.2 = "/login"
  ∧ length (trace run.2) = 2%nat.
Proof. vm_compute. split; [by eexists _, _, _|done]. Qed.

(** C5, run: a 500 leaves everything as it was. *)
Lemma response_interceptor_frame_witness :
  response_rejected (H := scripted) api (server_error thermostats_request)
    (scripted_world signed_in [NetResponse 200 JNull])
  = (Rejected (server_error thermostats_request),
     scripted_world signed_in [NetResponse 200 JNull]).
Proof.
  destruct (response_interceptor_frame (H := scripted) api
              (server_error thermostats_request)
              (scripted_world signed_in [NetResponse 200 JNull]))
    as (Hreject & _); [left; reflexivity|].
  exact Hreject.
Defined.

(** C6, run: the stored token [old] is attached. *)
Lemma request_interceptor_bearer_witness :
  request_fulfilled (H := scripted) (plain_get "/properties/")
    (scripted_world signed_in [])
  = (Resolved (mkConfig GET "/properties/" None
                 (<["Authorization" := "Bearer old"]> ∅) JUndefined false),
     scripted_world signed_in []).
Proof.
  destruct (request_interceptor_bearer (H := scripted) (plain_get "/properties/")
              (scripted_world signed_in [])) as (Hstored & _).
  apply (Hstored "old"); [reflexivity | discriminate].
Defined.

(** C6, the claim as written fails: with the empty string stored under
    [token] there is a stored entry, and no Authorization header is
    attached. *)
Lemma request_interceptor_empty_token :
  let w := scripted_world {[ "token" := "" ]} [] in
  localStorage w !! "token" = Some ""
  ∧ request_fulfilled (plain_get "/properties/") w
      = (Resolved (plain_get "/properties/"), w)
  ∧ cfg_headers (plain_get "/properties/") !! "Authorization" = None.
Proof. vm_compute. done. Qed.

(** C8, run in the environment where the variable is unset: a request
    answered 401 goes out under the base URL on port 8001 and the refresh
    token [r1] is then posted to the URL on port 8000. *)
Lemma default_origins_differ_witness :
  let w := signed_in_world [NetResponse 401 JNull; NetResponse 401 JNull] in
  baseURL (H := scripted) = "http://localhost:8001/api"
  ∧ refresh_url (H := scripted) = "http://localhost:8000/api/token/refresh/"
  ∧ ∃ request rest,
      trace (api (H := scripted) (plain_get "/thermostats/") w).2
        = trace w ++ request
            :: mkCall POST None "http://localhost:8000/api/token/refresh/" ∅
                 (JObj [("refresh", JStr "r1")])
            :: rest
      ∧ call_baseURL request = Some "http://localhost:8001/api"
      ∧ call_url request = cfg_url (plain_get "/thermostats/").
Proof.
  intros w.
  destruct (default_origins_differ (H := scripted))
    as (Hbase & Hrefresh & _ & _ & _ & _ & Hcycle); [reflexivity|].
  split; [exact Hbase|]. split; [exact Hrefresh|].
  apply (Hcycle (plain_get "/thermostats/") w JNull [NetResponse 401 JNull] "r1");
    [reflexivity | reflexivity | reflexivity | reflexivity | discriminate].
Defined.





(** An error object without a message: the fallback text is shown. *)
Example handleCieloCreate_fallback :
  VendorsPage.handleCieloCreate (H := flaky_vendors) (filled_form, ())
  = (VendorsPage.Fulfilled (),
     (VendorsPage.with_error filled_form (JStr "Failed to create Cielo account") false,
      ())).
Proof. reflexivity. Qed.

(** The message of a thrown [null] cannot be read: the [catch] clause itself
    throws, and the handler ends with that TypeError. *)
Example handleNetHomeCreate_null :
  ∃ typeError,
    (VendorsPage.handleNetHomeCreate (H := flaky_vendors) (filled_form, ())).1
      = VendorsPage.Thrown typeError
    ∧ get_prop typeError "name" = Some (JStr "TypeError").
Proof. eexists. split; reflexivity. Qed.

(** ** Runs for the further properties *)

(** X1, run: a request that resolves after a refresh has refreshed the
    browser, or left it as it was. *)
Lemma request_browser_effects_witness :
  let w := signed_in_world
             [NetResponse 401 JNull; NetResponse 200 (JObj [("access", JStr "new")]);
              NetResponse 200 (JStr "ok")] in
  same_browser w (api (H := scripted) (plain_get "/thermostats/") w).2
  ∨ refreshed w (api (H := scripted) (plain_get "/thermostats/") w).2.
Proof.
  intros w.
  destruct (request_browser_effects (H := scripted) (plain_get "/thermostats/") w)
    as (_ & Hresolved & _).
  apply (Hresolved (mkResponse 200 (JStr "ok")
                      (sent_config (H := scripted)
                         (set_header "Authorization" "Bearer new"
                            (set_retry true
                               (sent_config (H := scripted)
                                  (plain_get "/thermostats/") w)))
                         (api (H := scripted) (plain_get "/thermostats/") w).2))).
  reflexivity.
Defined.

(** X2, run: a consistent browser stays consistent through a refresh. *)
Lemma request_keeps_token_header_consistent_witness :
  token_header_consistent (H := scripted)
    (api (H := scripted) (plain_get "/thermostats/")
       (signed_in_world
          [NetResponse 401 JNull; NetResponse 200 (JObj [("access", JStr "new")]);
           NetResponse 200 (JStr "ok")])).2.
Proof.
  apply (request_keeps_token_header_consistent (H := scripted)).
  intros v Hv. vm_compute in Hv. injection Hv as <-.
  exists "old". split; reflexivity.
Defined.

(** X3, run: a request answered 200 at once. *)
Lemma resolved_response_is_success_witness :
  200 ≤ 200 < 300
  ∧ cfg_url (sent_config (H := scripted) (plain_get "/thermostats/")
               (signed_in_world [NetResponse 200 (JStr "ok")])) = "/thermostats/".
Proof.
  destruct (resolved_response_is_success (H := scripted) (plain_get "/thermostats/")
              (signed_in_world [NetResponse 200 (JStr "ok")])
              (mkResponse 200 (JStr "ok")
                 (sent_config (H := scripted) (plain_get "/thermostats/")
                    (signed_in_world [NetResponse 200 (JStr "ok")]))))
    as (Hstatus & _ & Hurl & _); [reflexivity|].
  split; [exact Hstatus | exact Hurl].
Defined.

(** X4, run: the retry goes out with [Bearer new]. *)
Lemma retry_carries_new_token_witness :
  ∃ k, trace (api (H := scripted) (plain_get "/thermostats/")
                (signed_in_world
                   [NetResponse 401 JNull;
                    NetResponse 200 (JObj [("access", JStr "new")]);
                    NetResponse 500 JNull])).2
         = [] ++ [call_of (sent_config (H := scripted) (plain_get "/thermostats/")
                             (signed_in_world
                                [NetResponse 401 JNull;
                                 NetResponse 200 (JObj [("access", JStr "new")]);
                                 NetResponse 500 JNull]));
                  refresh_call (H := scripted) "r1"; k]
       ∧ call_headers k !! "Authorization" = Some "Bearer new"
       ∧ call_method k = GET
       ∧ call_url k = "/thermostats/"
       ∧ call_data k = JUndefined.
Proof.
  apply (retry_carries_new_token (H := scripted) (plain_get "/thermostats/")
           (signed_in_world
              [NetResponse 401 JNull; NetResponse 200 (JObj [("access", JStr "new")]);
               NetResponse 500 JNull])
           JNull
           [NetResponse 200 (JObj [("access", JStr "new")]); NetResponse 500 JNull]
           [NetResponse 500 JNull]
           "r1" 200 (JObj [("access", JStr "new")]) (JStr "new"));
    [reflexivity | reflexivity | reflexivity | discriminate | reflexivity
    | reflexivity | reflexivity].
Defined.

(** X5, run: the retry is answered 500; the session is kept. *)
Lemma failed_retry_keeps_session_witness :
  let run := api (H := scripted) (plain_get "/thermostats/")
               (signed_in_world
                  [NetResponse 401 JNull;
                   NetResponse 200 (JObj [("access", JStr "new")]);
                   NetResponse 500 JNull]) in
  localStorage run.2 !! "refreshToken" = Some "r1"
  ∧ defaults_common run.2 !! "Authorization" = Some "Bearer new"
  ∧ location_href run.2 = "/dashboard".
Proof.
  destruct (failed_retry_keeps_session (H := scripted) (plain_get "/thermostats/")
              (signed_in_world
                 [NetResponse 401 JNull;
                  NetResponse 200 (JObj [("access", JStr "new")]);
                  NetResponse 500 JNull])
              JNull
              [NetResponse 200 (JObj [("access", JStr "new")]); NetResponse 500 JNull]
              [NetResponse 500 JNull]
              "r1" 200 (JObj [("access", JStr "new")]) (JStr "new"))
    as (_ & Hrefresh & Hheader & Hhref & _);
    [reflexivity | reflexivity | reflexivity | discriminate | reflexivity
    | reflexivity | reflexivity |].
  split; [exact Hrefresh|]. split; [exact Hheader | exact Hhref].
Defined.

(** X6, run: a 401 with only an access token stored. *)
Lemma unauthorized_without_refresh_token_witness :
  let w := scripted_world {[ "token" := "old" ]}
             [NetResponse 401 JNull; NetResponse 200 JNull] in
  api (H := scripted) (plain_get "/thermostats/") w
  = (Rejected (Error "No refresh token available"),
     mkWorld (H := scripted)
       (delete "refreshToken" (delete "token" (localStorage w)))
       (delete "Authorization" (defaults_common w)) "/login" [NetResponse 200 JNull]
       (trace w ++ [call_of (sent_config (H := scripted) (plain_get "/thermostats/") w)])).
Proof.
  intros w.
  apply (unauthorized_without_refresh_token (H := scripted)
           (plain_get "/thermostats/") w JNull [NetResponse 200 JNull]);
    [reflexivity | reflexivity | left; reflexivity].
Defined.

(** X7, run: after the logout of a refused refresh, the next request has no
    Authorization header. *)
Lemma request_after_logout_is_anonymous_witness :
  let w' := (response_rejected (H := scripted) api (unauthorized thermostats_request)
               (signed_in_world [NetResponse 401 JNull; NetResponse 200 JNull])).2 in
  ∃ calls,
    trace (api (H := scripted) (plain_get "/properties/") w').2
      = trace w' ++ call_of (sent_config (H := scripted) (plain_get "/properties/") w')
                    :: calls
    ∧ call_headers (call_of (sent_config (H := scripted) (plain_get "/properties/") w'))
        !! "Authorization" = None.
Proof.
  apply (request_after_logout_is_anonymous (H := scripted) api
           (unauthorized thermostats_request)
           (AxiosError "Request failed"
              (Some (mkResponse 401 JNull
                       (mkConfig POST "http://localhost:8000/api/token/refresh/" None ∅
                          (JObj [("refresh", JStr "r1")]) false)))
              (Some (mkConfig POST "http://localhost:8000/api/token/refresh/" None ∅
                       (JObj [("refresh", JStr "r1")]) false)))
           thermostats_request
           (signed_in_world [NetResponse 401 JNull; NetResponse 200 JNull])
           (mkWorld (H := scripted) signed_in {[ "Authorization" := "Bearer old" ]}
              "/dashboard" [NetResponse 200 JNull] [refresh_call (H := scripted) "r1"])
           (plain_get "/properties/"));
    reflexivity.
Defined.

(** X8, run. *)
Lemma request_interceptor_idempotent_witness :
  request_fulfilled (H := scripted)
    (set_header "Authorization" "Bearer old" (plain_get "/properties/"))
    (signed_in_world [])
  = (Resolved (set_header "Authorization" "Bearer old" (plain_get "/properties/")),
     signed_in_world []).
Proof.
  apply (request_interceptor_idempotent (H := scripted) (plain_get "/properties/")
           (set_header "Authorization" "Bearer old" (plain_get "/properties/"))
           (signed_in_world []) (signed_in_world [])).
  reflexivity.
Defined.

(** X9, run in the environment where the variable is set: request and
    refresh go to the configured URL. *)
Lemma configured_url_is_shared_witness :
  let w := staging_world signed_in [NetResponse 401 JNull; NetResponse 401 JNull] in
  baseURL (H := staging) = "https://staging.example.org/api"
  ∧ refresh_url (H := staging) = "https://staging.example.org/api/token/refresh/"
  ∧ ∃ request rest,
      trace (api (H := staging) (plain_get "/thermostats/") w).2
        = trace w ++ request
            :: mkCall POST None
                 ("https://staging.example.org/api" +:+ "/token/refresh/") ∅
                 (JObj [("refresh", JStr "r1")])
            :: rest
      ∧ call_baseURL request = Some "https://staging.example.org/api"
      ∧ call_url request = cfg_url (plain_get "/thermostats/").
Proof.
  intros w.
  destruct (configured_url_is_shared (H := staging) "https://staging.example.org/api")
    as (Hset & _); [reflexivity|].
  destruct Hset as (Hbase & Hrefresh & _ & Hcycle); [discriminate|].
  split; [exact Hbase|]. split; [exact Hrefresh|].
  apply (Hcycle (plain_get "/thermostats/") w JNull [NetResponse 401 JNull] "r1");
    [reflexivity | reflexivity | reflexivity | reflexivity | discriminate].
Defined.

(** X10, run: the Nest form of [filled_form] is empty. *)
Lemma create_requires_fields_witness :
  VendorsPage.handleNestCreate (H := flaky_vendors) (filled_form, ())
  = (VendorsPage.Fulfilled (),
     (VendorsPage.with_error filled_form
        (JStr "Nest access token, refresh token and expires_at are required") false,
      ())).
Proof.
  destruct (create_requires_fields (H := flaky_vendors) filled_form ())
    as (_ & Hnest & _).
  apply Hnest. left. reflexivity.
Defined.

(** X11, run: a Cielo account is created and the list reloaded. *)
Lemma create_success_witness :
  VendorsPage.handleCieloCreate (H := healthy_vendors) (filled_form, 0%nat)
  = (VendorsPage.Fulfilled (),
     (VendorsPage.mkState
        (VendorsPage.mkAccounts (JStr "cielo") (JObj []) (JObj []))
        (VendorsPage.mkCieloForm "" "" "")
        (VendorsPage.mkNestForm "" "" "" "" "")
        (VendorsPage.mkNetHomeForm "key-2" "" "")
        JNull false,
      2%nat)).
Proof.
  destruct (create_success (H := healthy_vendors) filled_form 0%nat 1%nat 2%nat
              JNull (JStr "cielo")) as (Hcielo & _).
  apply Hcielo; [discriminate | reflexivity | reflexivity].
Defined.

(** X12, run: the three lists are loaded. *)
Lemma fetch_success_witness :
  VendorsPage.fetchAccounts (H := healthy_vendors) [2; 0; 1]%nat (filled_form, 0%nat)
  = (VendorsPage.Fulfilled (),
     (VendorsPage.mkState
        (VendorsPage.mkAccounts (JStr "cielo") (JStr "nest") (JStr "nethome"))
        (VendorsPage.mkCieloForm "key-1" "" "")
        (VendorsPage.mkNestForm "" "" "" "" "")
        (VendorsPage.mkNetHomeForm "key-2" "" "")
        JNull false,
      3%nat)).
Proof.
  apply (fetch_success (H := healthy_vendors) [2; 0; 1]%nat filled_form
           0%nat 1%nat 2%nat 3%nat (JStr "cielo") (JStr "nest") (JStr "nethome"));
    reflexivity.
Defined.

(** X13, run: only the Cielo listing fails, and no list is replaced; the
    message [Network Error] is rendered in the error box. *)
Lemma fetch_partial_failure_witness :
  ∃ err message,
    VendorsPage.Thrown err ∈
      [VendorsPage.Thrown (JObj [("message", JStr "Network Error")]);
       VendorsPage.Fulfilled (JObj []); VendorsPage.Fulfilled (JObj [])]
    ∧ get_prop err "message" = Some message
    ∧ VendorsPage.fetchAccounts (H := flaky_vendors) [1; 2; 0]%nat (filled_form, ())
        = (VendorsPage.Fulfilled (),
           (VendorsPage.with_error filled_form
              (or_else message (JStr "Failed to load vendor accounts")) false, ()))
    ∧ truthy (or_else message (JStr "Failed to load vendor accounts")) = true
    ∧ ((∃ text, message = JStr text) ∨ truthy message = false →
       ∃ text,
         text ≠ ""
         ∧ or_else message (JStr "Failed to load vendor accounts") = JStr text
         ∧ VendorsPage.render (Some "admin")
             (VendorsPage.with_error filled_form (JStr text) false)
             = VendorsPage.VendorAccounts false
                 (VendorsPage.Box (VendorsPage.Text text))).
Proof.
  apply (fetch_partial_failure (H := flaky_vendors) [1; 2; 0]%nat filled_form
           () () () ()
           (VendorsPage.Thrown (JObj [("message", JStr "Network Error")]))
           (VendorsPage.Fulfilled (JObj [])) (VendorsPage.Fulfilled (JObj [])));
    [reflexivity | reflexivity | reflexivity | |].
  - exists (JObj [("message", JStr "Network Error")]). left. reflexivity.
  - intros err Hin.
    apply elem_of_cons in Hin as [Heq|Hin]; [injection Heq as ->; discriminate|].
    apply elem_of_cons in Hin as [Heq|Hin]; [discriminate Heq|].
    apply elem_of_cons in Hin as [Heq|Hin]; [discriminate Heq|].
    apply elem_of_nil in Hin. destruct Hin.
Defined.

(** The load of [flaky_vendors], rendered. *)
Example fetch_failure_rendered :
  VendorsPage.render (Some "admin")
    (VendorsPage.fetchAccounts (H := flaky_vendors) [1; 2; 0]%nat (filled_form, ())).2.1
  = VendorsPage.VendorAccounts false (VendorsPage.Box (VendorsPage.Text "Network Error")).
Proof. reflexivity. Qed.

